(** * Outgoing sync translation (src/sync/outgoingSyncUtils.js)

    A shallow embedding of [generateSyncJson], [generateSyncData],
    [getDateString], [getTimeString] and [safeGet], together with the part of
    the JavaScript semantics they rely on (property reads, truthiness, [&&],
    [String(...)], [*], [Date.prototype.toISOString], [toTimeString]).

    Modelling conventions
    - a JavaScript value is a [value]; objects are association lists of their
      own data properties, in insertion order (Realm objects are read through
      the same property reads, their computed attributes appear as data);
      inherited prototype members and properties of primitives other than a
      string's [length] are not modelled and read as [undefined]; [safeGet]
      is also given over the property read of any runtime ([safeGet_by]);
    - a JavaScript number is an IEEE-754 binary64 value ([spec_float] with
      precision 53 and maximal exponent 1024);
    - a thrown value is a [jserror]: the error's class, its [message] and the
      ad hoc [canDeleteSyncOut] property ([false] when the property is unset);
    - a computation that may throw is an [outcome]; the envelope builder also
      emits [event]s for its two calls to collaborators (the store query and
      the diagnostic report);
    - whatever is implementation-defined in ECMAScript (number printing,
      time-zone data, fault messages) is a field of [Engine]; whatever is
      imported from modules other than the translated file (the vocabulary
      tables, the change-type constant) is a field of [Imports], and the
      diagnostic reporter is a [BugsnagClient]; the definitions are made in a
      section over one variable of each. *)

From Stdlib Require Import ZArith List String Ascii Bool Lia DecimalString.
From Stdlib Require Import Floats.SpecFloat.
Import ListNotations.
Local Open Scope string_scope.
Local Open Scope Z_scope.

(** ** Values and errors *)

#[warnings="-register-all"]
Inductive value : Type :=
| VUndefined
| VNull
| VBool (b : bool)
| VNum (x : spec_float)
| VStr (s : string)
| VDate (t : option Z)   (* time value in ms since the epoch; [None] is NaN *)
| VObj (props : list (string * value)).

Inductive error_class := Error | TypeError | RangeError.

Record jserror := mkError {
  class : error_class;
  message : string;
  canDeleteSyncOut : bool
}.

Definition set_message (m : string) (e : jserror) : jserror :=
  mkError (class e) m (canDeleteSyncOut e).

Definition set_canDeleteSyncOut (b : bool) (e : jserror) : jserror :=
  mkError (class e) (message e) b.

Inductive outcome (A : Type) : Type :=
| Return (a : A)
| Throw (e : jserror).
Arguments Return {A} a.
Arguments Throw {A} e.

Definition bind {A B : Type} (m : outcome A) (k : A -> outcome B) : outcome B :=
  match m with
  | Return a => k a
  | Throw e => Throw e
  end.

Declare Scope js_scope.
Delimit Scope js_scope with js.
Notation "x <- m ;; k" := (bind m (fun x => k))
  (at level 61, m at next level, right associativity) : js_scope.
Local Open Scope js_scope.

(** ** Numbers *)

Definition prec64 : Z := 53.
Definition emax64 : Z := 1024.

Definition number_of_Z (n : Z) : spec_float := binary_normalize prec64 emax64 n 0 false.
Definition number_mul : spec_float -> spec_float -> spec_float := SFmul prec64 emax64.
Definition NaN : spec_float := S754_nan.

(** ** Strings *)

Definition dquote : string := String (ascii_of_nat 34) EmptyString.

(** [s.split(sep)] for a one-character separator. *)
Fixpoint split (sep : ascii) (s : string) : list string :=
  match s with
  | EmptyString => [EmptyString]
  | String c rest =>
      if Ascii.eqb c sep then EmptyString :: split sep rest
      else match split sep rest with
           | [] => [String c EmptyString]
           | seg :: segs => String c seg :: segs
           end
  end.

(** [s.slice(0, n)] and [s.substring(0, n)] for [0 <= n]. *)
Fixpoint take (n : nat) (s : string) : string :=
  match n, s with
  | O, _ => EmptyString
  | S _, EmptyString => EmptyString
  | S n', String c rest => String c (take n' rest)
  end.

Definition digit (n : Z) : ascii := ascii_of_nat (48 + Z.to_nat (n mod 10)).

Definition pad2 (n : Z) : string :=
  String (digit (n / 10)) (String (digit n) EmptyString).

Definition pad3 (n : Z) : string := String (digit (n / 100)) (pad2 n).

Definition pad4 (n : Z) : string := String (digit (n / 1000)) (pad3 n).

Definition pad6 (n : Z) : string :=
  String (digit (n / 100000)) (String (digit (n / 10000)) (pad4 n)).

(** ** Objects *)

Fixpoint lookup {A : Type} (k : string) (props : list (string * A)) : option A :=
  match props with
  | [] => None
  | (k', v) :: rest => if String.eqb k k' then Some v else lookup k rest
  end.

Definition nullish (v : value) : bool :=
  match v with
  | VUndefined | VNull => true
  | _ => false
  end.

Definition truthy (v : value) : bool :=
  match v with
  | VUndefined | VNull => false
  | VBool b => b
  | VNum (S754_zero _) | VNum S754_nan => false
  | VNum _ => true
  | VStr EmptyString => false
  | VStr _ => true
  | VDate _ | VObj _ => true
  end.

(** [typeof v === 'object'] *)
Definition typeof_object (v : value) : bool :=
  match v with
  | VNull | VDate _ | VObj _ => true
  | _ => false
  end.

(** ** Dates (ECMAScript time values, proleptic Gregorian calendar) *)

Definition msPerDay : Z := 86400000.
Definition msPerHour : Z := 3600000.
Definition msPerMinute : Z := 60000.
Definition msPerSecond : Z := 1000.

Definition Day (t : Z) : Z := t / msPerDay.

(** Year, month (1..12) and day of the month of a day number counted from
    1970-01-01. *)
Definition civil_from_days (z : Z) : Z * Z * Z :=
  let z := z + 719468 in
  let era := z / 146097 in
  let doe := z - era * 146097 in
  let yoe := (doe - doe / 1460 + doe / 36524 - doe / 146096) / 365 in
  let doy := doe - (365 * yoe + yoe / 4 - yoe / 100) in
  let mp := (5 * doy + 2) / 153 in
  let d := doy - (153 * mp + 2) / 5 + 1 in
  let m := if mp <? 10 then mp + 3 else mp - 9 in
  ((yoe + era * 400) + (if m <=? 2 then 1 else 0), m, d).

(** Day number of the day [d] of month [m] (1..12) of year [y]. *)
Definition days_from_civil (y m d : Z) : Z :=
  let y := if m <=? 2 then y - 1 else y in
  let era := y / 400 in
  let yoe := y - era * 400 in
  let doy := (153 * (if 2 <? m then m - 3 else m + 9) + 2) / 5 + d - 1 in
  let doe := yoe * 365 + yoe / 4 - yoe / 100 + doy in
  era * 146097 + doe - 719468.

Definition YearFromTime (t : Z) : Z := fst (fst (civil_from_days (Day t))).
Definition MonthFromTime (t : Z) : Z := snd (fst (civil_from_days (Day t))).
Definition DateFromTime (t : Z) : Z := snd (civil_from_days (Day t)).
Definition HourFromTime (t : Z) : Z := (t / msPerHour) mod 24.
Definition MinFromTime (t : Z) : Z := (t / msPerMinute) mod 60.
Definition SecFromTime (t : Z) : Z := (t / msPerSecond) mod 60.
Definition msFromTime (t : Z) : Z := t mod msPerSecond.

(** The year of an ISO date-time string: four digits, or a sign and six. *)
Definition isoYear (y : Z) : string :=
  if (0 <=? y) && (y <=? 9999) then pad4 y
  else (if y <? 0 then "-" else "+") ++ pad6 (Z.abs y).

Definition isoDate (t : Z) : string :=
  isoYear (YearFromTime t) ++ "-" ++ pad2 (MonthFromTime t) ++ "-" ++ pad2 (DateFromTime t).

Definition clockTime (t : Z) : string :=
  pad2 (HourFromTime t) ++ ":" ++ pad2 (MinFromTime t) ++ ":" ++ pad2 (SecFromTime t).

(** ** Collaborators *)

Record Engine := {
  (** message of the [TypeError] raised by reading a property of [null] or
      [undefined] *)
  nullReadMessage : value -> string -> string;
  (** message of the [TypeError] raised by calling an absent method *)
  notAFunctionMessage : string -> string;
  (** message of the [RangeError] raised by [toISOString] on an invalid date *)
  invalidTimeMessage : string;
  (** [Number::toString], [StringToNumber], conversions of objects *)
  NumberToString : spec_float -> string;
  StringToNumber : string -> spec_float;
  ObjectToString : value -> string;
  ObjectToNumber : value -> spec_float;
  (** offset of local time from UTC in ms at a time value, which is UTC when
      the flag is set and local otherwise *)
  LocalTZA : Z -> bool -> Z;
  (** what [toTimeString] prints after the wall-clock time *)
  TimeZoneString : Z -> string
}.

Inductive direction := INTERNAL_TO_EXTERNAL | EXTERNAL_TO_INTERNAL.

(** A vocabulary table of ./syncTranslators: [translate(key, direction,
    context)], which may return any value or throw. *)
Record SyncTranslator := {
  translate : value -> direction -> value -> outcome value
}.

Record Imports := {
  RECORD_TYPES : SyncTranslator;
  REQUISITION_STATUSES : SyncTranslator;
  REQUISITION_TYPES : SyncTranslator;
  SEQUENCE_KEYS : SyncTranslator;
  STATUSES : SyncTranslator;
  SYNC_TYPES : SyncTranslator;
  TRANSACTION_BATCH_TYPES : SyncTranslator;
  TRANSACTION_TYPES : SyncTranslator;
  (** [CHANGE_TYPES.DELETE] of ../database *)
  CHANGE_TYPES_DELETE : string
}.

(** The keys of ../settings read by the translation. *)
Inductive SETTINGS_KEYS :=
| SUPPLYING_STORE_NAME_ID | THIS_STORE_ID | SYNC_URL | SYNC_SITE_NAME.

Definition Settings : Type := SETTINGS_KEYS -> value.

(** [notify error] returns normally ([None]) or throws ([Some fault]). *)
Record BugsnagClient := {
  notify : jserror -> option jserror
}.

(** The local database: the objects of each record type. *)
Definition Realm : Type := string -> list value.

Record SyncOut := {
  isValid : bool;
  id : string;
  recordType : string;
  recordId : string;
  changeType : string
}.

(** Calls to collaborators made by the envelope builder, latest last. *)
Inductive event :=
| Query (recordType recordId : string)
| Notify (error : jserror).

Section OutgoingSync.

Variable engine : Engine.
Variable imports : Imports.
Variable bugsnagClient : BugsnagClient.

(** [v[k]] *)
Definition get (v : value) (k : string) : outcome value :=
  match v with
  | VUndefined | VNull => Throw (mkError TypeError (nullReadMessage engine v k) false)
  | VObj props =>
      Return (match lookup k props with Some x => x | None => VUndefined end)
  | VStr s =>
      if String.eqb k "length"
      then Return (VNum (number_of_Z (Z.of_nat (String.length s))))
      else Return VUndefined
  | VBool _ | VNum _ | VDate _ => Return VUndefined
  end.

(** [String(v)], also the conversion made by a template literal *)
Definition String_ (v : value) : string :=
  match v with
  | VUndefined => "undefined"
  | VNull => "null"
  | VBool true => "true"
  | VBool false => "false"
  | VNum x => NumberToString engine x
  | VStr s => s
  | VDate _ | VObj _ => ObjectToString engine v
  end.

(** [ToNumber(v)] and [a * b] *)
Definition ToNumber (v : value) : spec_float :=
  match v with
  | VUndefined => NaN
  | VNull => number_of_Z 0
  | VBool true => number_of_Z 1
  | VBool false => number_of_Z 0
  | VNum x => x
  | VStr s => StringToNumber engine s
  | VDate _ | VObj _ => ObjectToNumber engine v
  end.

Definition times (a b : value) : value := VNum (number_mul (ToNumber a) (ToNumber b)).

(** [new Date(year, monthIndex, day)]: local midnight of a calendar day. *)
Definition Date_ymd (year monthIndex day : Z) : value :=
  let year := if (0 <=? year) && (year <=? 99) then 1900 + year else year in
  let ym := year + monthIndex / 12 in
  let mn := monthIndex mod 12 in
  let t := (days_from_civil ym (mn + 1) 1 + day - 1) * msPerDay in
  VDate (Some (t - LocalTZA engine t false)).

(** [date.toISOString()] *)
Definition toISOString (date : value) : outcome string :=
  match date with
  | VDate (Some t) =>
      Return (isoDate t ++ "T" ++ clockTime t ++ "." ++ pad3 (msFromTime t) ++ "Z")
  | VDate None => Throw (mkError RangeError (invalidTimeMessage engine) false)
  | VUndefined | VNull =>
      Throw (mkError TypeError (nullReadMessage engine date "toISOString") false)
  | _ => Throw (mkError TypeError (notAFunctionMessage engine "toISOString") false)
  end.

(** [date.toTimeString()] *)
Definition toTimeString (date : value) : outcome string :=
  match date with
  | VDate (Some t) =>
      Return (clockTime (t + LocalTZA engine t true) ++ TimeZoneString engine t)
  | VDate None => Return "Invalid Date"
  | VUndefined | VNull =>
      Throw (mkError TypeError (nullReadMessage engine date "toTimeString") false)
  | _ => Throw (mkError TypeError (notAFunctionMessage engine "toTimeString") false)
  end.

(** ** getDateString, getTimeString *)

Definition getDateString (date : value) : outcome value :=
  let returnDate := "0000-00-00" in
  returnDate <-
    (if truthy date && typeof_object date
     then iso <- toISOString date ;; Return (take 10 iso)
     else Return returnDate) ;;
  Return (VStr (returnDate ++ "T00:00:00")).

Definition getTimeString (date : value) : outcome value :=
  if negb (truthy date) || negb (typeof_object date) then Return (VStr "00:00:00")
  else time <- toTimeString date ;; Return (VStr (take 8 time)).

(** ** safeGet *)

Fixpoint safeGet_loop (pathSegments : list string) (currentPath : string)
    (nestedProp : value) : outcome value :=
  match pathSegments with
  | [] => Return nestedProp
  | segment :: rest =>
      let currentPath := currentPath ++ "." ++ segment in
      match get nestedProp segment with
      | Return nestedProp => safeGet_loop rest currentPath nestedProp
      | Throw error =>
          let error := set_canDeleteSyncOut true error in
          let error :=
            set_message ("Error on object getter on path " ++ dquote ++ currentPath
                         ++ dquote ++ ", original message: " ++ message error) error in
          Throw error
      end
  end.

Definition safeGet (record : value) (path : string) : outcome value :=
  let pathSegments := split "." path in
  safeGet_loop pathSegments "record" record.

(** ** generateSyncData *)

(** An object literal: the property initialisers are evaluated in source
    order, and the first one that throws ends the evaluation. *)
Fixpoint properties (fields : list (string * outcome value))
    : outcome (list (string * value)) :=
  match fields with
  | [] => Return []
  | (k, m) :: rest => v <- m ;; ps <- properties rest ;; Return ((k, v) :: ps)
  end.

Definition object (fields : list (string * outcome value)) : outcome value :=
  ps <- properties fields ;; Return (VObj ps).

(** [String(record.attribute)] *)
Definition String_attr (record : value) (attribute : string) : outcome value :=
  v <- get record attribute ;; Return (VStr (String_ v)).

(** [getDateString(record.attribute)], [getTimeString(record.attribute)] *)
Definition date_attr (record : value) (attribute : string) : outcome value :=
  d <- get record attribute ;; getDateString d.

Definition time_attr (record : value) (attribute : string) : outcome value :=
  d <- get record attribute ;; getTimeString d.

(** [record.reference && record.reference.id] *)
Definition reference_id (record : value) (reference : string) : outcome value :=
  r <- get record reference ;;
  if truthy r then r <- get record reference ;; get r "id" else Return r.

(** [TABLE.translate(record.attribute, INTERNAL_TO_EXTERNAL)] *)
Definition translate_attr (table : SyncTranslator) (record : value) (attribute : string)
    : outcome value :=
  v <- get record attribute ;; translate table v INTERNAL_TO_EXTERNAL VUndefined.

Definition generateSyncData (settings : Settings) (recordType : string) (record : value)
    : outcome value :=
  if String.eqb recordType "ItemBatch" then
    object [
      ("ID", get record "id");
      ("store_ID", Return (settings THIS_STORE_ID));
      ("item_ID", get record "itemId");
      ("pack_size", String_attr record "packSize");
      ("expiry_date", date_attr record "expiryDate");
      ("batch", get record "batch");
      ("available", String_attr record "numberOfPacks");
      ("quantity", String_attr record "numberOfPacks");
      ("stock_on_hand_tot", String_attr record "totalQuantity");
      ("cost_price", String_attr record "costPrice");
      ("sell_price", String_attr record "sellPrice");
      ("total_cost",
         c <- get record "costPrice" ;; n <- get record "numberOfPacks" ;;
         Return (VStr (String_ (times c n))));
      ("name_ID", Return (settings SUPPLYING_STORE_NAME_ID))
    ]
  else if String.eqb recordType "NumberSequence" then
    let thisStoreId := settings THIS_STORE_ID in
    object [
      ("ID", get record "id");
      ("name",
         k <- get record "sequenceKey" ;;
         translate (SEQUENCE_KEYS imports) k INTERNAL_TO_EXTERNAL thisStoreId);
      ("value", String_attr record "highestNumberUsed")
    ]
  else if String.eqb recordType "NumberToReuse" then
    let thisStoreId := settings THIS_STORE_ID in
    object [
      ("ID", get record "id");
      ("name",
         k <- get record "sequenceKey" ;;
         translate (SEQUENCE_KEYS imports) k INTERNAL_TO_EXTERNAL thisStoreId);
      ("number_to_use", String_attr record "number")
    ]
  else if String.eqb recordType "Requisition" then
    object [
      ("ID", get record "id");
      ("date_entered", date_attr record "entryDate");
      ("user_ID", get record "enteredById");
      ("name_ID", reference_id record "otherStoreName");
      ("status", translate_attr (REQUISITION_STATUSES imports) record "status");
      ("daysToSupply", String_attr record "daysToSupply");
      ("store_ID", Return (settings THIS_STORE_ID));
      ("serial_number", get record "serialNumber");
      ("requester_reference", get record "requesterReference");
      ("comment", get record "comment");
      ("type", translate_attr (REQUISITION_TYPES imports) record "type")
    ]
  else if String.eqb recordType "RequisitionItem" then
    object [
      ("ID", get record "id");
      ("requisition_ID", get record "requisitionId");
      ("item_ID", get record "itemId");
      ("stock_on_hand", String_attr record "stockOnHand");
      ("daily_usage", String_attr record "dailyUsage");
      ("suggested_quantity", String_attr record "suggestedQuantity");
      ("actualQuan", String_attr record "suppliedQuantity");
      ("line_number", String_attr record "sortIndex");
      ("Cust_stock_order", String_attr record "requiredQuantity");
      ("comment", get record "comment")
    ]
  else if String.eqb recordType "Stocktake" then
    object [
      ("ID", get record "id");
      ("Description", get record "name");
      ("stock_take_date", date_attr record "stocktakeDate");
      ("stock_take_time", time_attr record "stocktakeDate");
      ("created_by_ID", reference_id record "createdBy");
      ("status", translate_attr (STATUSES imports) record "status");
      ("finalised_by_ID", reference_id record "finalisedBy");
      ("invad_additions_ID", reference_id record "additions");
      ("invad_reductions_ID", reference_id record "reductions");
      ("store_ID", Return (settings THIS_STORE_ID));
      ("comment", get record "comment");
      ("stock_take_created_date", date_attr record "createdDate");
      ("serial_number", get record "serialNumber")
    ]
  else if String.eqb recordType "StocktakeBatch" then
    object [
      ("ID", get record "id");
      ("stock_take_ID", reference_id record "stocktake");
      ("item_line_ID", get record "itemBatchId");
      ("snapshot_qty", String_attr record "snapshotNumberOfPacks");
      ("snapshot_packsize", String_attr record "packSize");
      ("stock_take_qty", String_attr record "countedNumberOfPacks");
      ("line_number", String_attr record "sortIndex");
      ("expiry", date_attr record "expiryDate");
      ("cost_price", String_attr record "costPrice");
      ("sell_price", String_attr record "sellPrice");
      ("Batch", get record "batch");
      ("item_ID", get record "itemId")
    ]
  else if String.eqb recordType "Transaction" then
    object [
      ("ID", get record "id");
      ("name_ID", reference_id record "otherParty");
      ("invoice_num", get record "serialNumber");
      ("comment", get record "comment");
      ("entry_date", date_attr record "entryDate");
      ("type", translate_attr (TRANSACTION_TYPES imports) record "type");
      ("status", translate_attr (STATUSES imports) record "status");
      ("mode", Return (VStr "store"));
      ("total", String_attr record "totalPrice");
      ("their_ref", get record "theirRef");
      ("confirm_date", date_attr record "confirmDate");
      ("subtotal", String_attr record "totalPrice");
      ("user_ID", reference_id record "enteredBy");
      ("category_ID", reference_id record "category");
      ("confirm_time", time_attr record "confirmDate");
      ("store_ID", Return (settings THIS_STORE_ID));
      ("requisition_ID",
         c <- reference_id record "linkedRequisition" ;;
         if truthy c
         then r <- get record "linkedRequisition" ;; get r "id"
         else Return VUndefined)
    ]
  else if String.eqb recordType "TransactionBatch" then
    transaction <- get record "transaction" ;;
    object [
      ("ID", get record "id");
      ("transaction_ID", t <- get record "transaction" ;; get t "id");
      ("item_ID", get record "itemId");
      ("batch", get record "batch");
      ("price_extension", String_attr record "totalPrice");
      ("note", get record "note");
      ("cost_price", String_attr record "costPrice");
      ("sell_price", String_attr record "sellPrice");
      ("expiry_date", date_attr record "expiryDate");
      ("pack_size", String_attr record "packSize");
      ("quantity", String_attr record "numberOfPacks");
      ("item_line_ID", safeGet record "itemBatch.id");
      ("line_number", String_attr record "sortIndex");
      ("item_name", get record "itemName");
      ("is_from_inventory_adjustment", get transaction "isInventoryAdjustment");
      ("type",
         ty <- get transaction "type" ;;
         translate (TRANSACTION_BATCH_TYPES imports) ty INTERNAL_TO_EXTERNAL VUndefined)
    ]
  else Throw (mkError Error "Sync out record type not supported." false).

(** ** generateSyncJson *)

(** [database.objects(recordType).filtered('id == $0', recordId)] *)
Definition filtered_id (database : Realm) (recordType recordId : string) : list value :=
  filter (fun object =>
            match lookup "id" (match object with VObj ps => ps | _ => [] end) with
            | Some (VStr i) => String.eqb i recordId
            | _ => false
            end)
         (database recordType).

Definition generateSyncJson (database : Realm) (settings : Settings)
    (syncOutRecord : option SyncOut) : outcome value * list event :=
  match syncOutRecord with
  | None => (Throw (mkError Error "Missing sync out record" false), [])
  | Some syncOutRecord =>
  if negb (isValid syncOutRecord)
  then (Throw (mkError Error "Missing sync out record" false), [])
  else if String.eqb (recordType syncOutRecord) "" || String.eqb (id syncOutRecord) ""
          || String.eqb (recordId syncOutRecord) ""
  then (Throw (mkError Error "Malformed sync out record" false), [])
  else
  let recordType := recordType syncOutRecord in
  let recordId := recordId syncOutRecord in
  let changeType := changeType syncOutRecord in
  let storeId := settings THIS_STORE_ID in
  match translate (RECORD_TYPES imports) (VStr recordType) INTERNAL_TO_EXTERNAL VUndefined with
  | Throw error => (Throw error, [])
  | Return externalType =>
  match translate (SYNC_TYPES imports) (VStr changeType) INTERNAL_TO_EXTERNAL VUndefined with
  | Throw error => (Throw error, [])
  | Return externalSyncType =>
  let syncJson := [
    ("SyncID", VStr (id syncOutRecord));
    ("RecordType", externalType);
    ("RecordID", VStr recordId);
    ("SyncType", externalSyncType);
    ("StoreID", storeId)
  ] in
  if String.eqb changeType (CHANGE_TYPES_DELETE imports)
  then (Return (VObj syncJson), [])
  else
  if String.eqb changeType "delete"
  then (Return (VObj (syncJson ++ [("Data", VObj [("ID", VStr recordId)])])%list), [])
  else
    let recordResults := filtered_id database recordType recordId in
    let queried := [Query recordType recordId] in
    match recordResults with
    | [] => (Throw (mkError Error (recordType ++ " with id = " ++ recordId ++ " missing") false),
             queried)
    | _ :: _ :: _ =>
        (Throw (mkError Error ("Multiple " ++ recordType ++ " records with id = " ++ recordId)
                        false),
         queried)
    | [record] =>
        match generateSyncData settings recordType record with
        | Return syncData => (Return (VObj (syncJson ++ [("Data", syncData)])%list), queried)
        | Throw error =>
            let siteName := settings SYNC_SITE_NAME in
            let syncUrl := settings SYNC_URL in
            let originalMessage := message error in
            let error :=
              set_message
                ("SYNC OUT ERROR. siteName: " ++ String_ siteName
                 ++ ", serverUrl: " ++ String_ syncUrl ++ ", "
                 ++ "syncOutRecord.id: " ++ id syncOutRecord
                 ++ ", storeId: " ++ String_ storeId
                 ++ " changeType: " ++ changeType ++ ", "
                 ++ "recordType: " ++ recordType ++ ", recordId: " ++ recordId
                 ++ ", message: " ++ originalMessage) error in
            match notify bugsnagClient error with
            | Some fault => (Throw fault, (queried ++ [Notify error])%list)
            | None =>
                let reported := error in
                let error :=
                  set_message
                    ("There was an error syncing. Contact mSupply mobile support. "
                     ++ originalMessage) error in
                (Throw error, (queried ++ [Notify reported])%list)
            end
        end
    end
  end
  end
  end.

End OutgoingSync.

(** ** StocktakeBatch (src/database/DataTypes/StocktakeBatch.js)

    The accessors of the class, over an instance [this] given by its
    attributes. [generateSyncData] reads [itemId] and [itemBatchId] of a
    StocktakeBatch record. *)

Definition number_sub : spec_float -> spec_float -> spec_float := SFsub prec64 emax64.
Definition number_div : spec_float -> spec_float -> spec_float := SFdiv prec64 emax64.

(** [this.k = v] on an object. *)
Fixpoint assign (k : string) (v : value) (props : list (string * value))
    : list (string * value) :=
  match props with
  | [] => [(k, v)]
  | (k', v') :: rest =>
      if String.eqb k k' then (k, v) :: rest else (k', v') :: assign k v rest
  end.

(** [v === 0] *)
Definition strictly_zero (v : value) : bool :=
  match v with
  | VNum (S754_zero _) => true
  | _ => false
  end.

(** [database.delete(type, object)] *)
Inductive deletion := Delete (type : string) (object : value).

Module StocktakeBatch.
Section Accessors.

Variable engine : Engine.

(** [destructor(database)]: the deletions asked of the database. *)
Definition destructor (this : list (string * value)) : outcome (list deletion) :=
  snapshotNumberOfPacks <- get engine (VObj this) "snapshotNumberOfPacks" ;;
  if strictly_zero snapshotNumberOfPacks
  then
    itemBatch <- get engine (VObj this) "itemBatch" ;;
    numberOfPacks <- get engine itemBatch "numberOfPacks" ;;
    if strictly_zero numberOfPacks
    then itemBatch <- get engine (VObj this) "itemBatch" ;;
         Return [Delete "ItemBatch" itemBatch]
    else Return []
  else Return [].

Definition snapshotTotalQuantity (this : list (string * value)) : outcome value :=
  snapshotNumberOfPacks <- get engine (VObj this) "snapshotNumberOfPacks" ;;
  packSize <- get engine (VObj this) "packSize" ;;
  Return (times engine snapshotNumberOfPacks packSize).

Definition countedTotalQuantity (this : list (string * value)) : outcome value :=
  countedNumberOfPacks <- get engine (VObj this) "countedNumberOfPacks" ;;
  packSize <- get engine (VObj this) "packSize" ;;
  Return (times engine countedNumberOfPacks packSize).

Definition itemId (this : list (string * value)) : outcome value :=
  itemBatch <- get engine (VObj this) "itemBatch" ;;
  if negb (truthy itemBatch) then Return (VStr "")
  else
    itemBatch <- get engine (VObj this) "itemBatch" ;;
    item <- get engine itemBatch "item" ;;
    if truthy item
    then
      itemBatch <- get engine (VObj this) "itemBatch" ;;
      item <- get engine itemBatch "item" ;;
      get engine item "id"
    else Return (VStr "").

Definition itemBatchId (this : list (string * value)) : outcome value :=
  itemBatch <- get engine (VObj this) "itemBatch" ;;
  if truthy itemBatch
  then itemBatch <- get engine (VObj this) "itemBatch" ;; get engine itemBatch "id"
  else Return (VStr "").

Definition difference (this : list (string * value)) : outcome value :=
  counted <- countedTotalQuantity this ;;
  snapshot <- snapshotTotalQuantity this ;;
  Return (VNum (number_sub (ToNumber engine counted) (ToNumber engine snapshot))).

(** The setter of [countedTotalQuantity]; the result is the instance after
    the assignment. *)
Definition set_countedTotalQuantity (this : list (string * value)) (quantity : value)
    : outcome (list (string * value)) :=
  packSize <- get engine (VObj this) "packSize" ;;
  countedNumberOfPacks <-
    (if truthy packSize
     then
       packSize <- get engine (VObj this) "packSize" ;;
       Return (VNum (number_div (ToNumber engine quantity) (ToNumber engine packSize)))
     else Return (VNum (number_of_Z 0))) ;;
  Return (assign "countedNumberOfPacks" countedNumberOfPacks this).

End Accessors.
End StocktakeBatch.

(** ** safeGet over the property read of the runtime

    [safeGet] with the read [nestedProp[segment]] left to the runtime:
    [read v k] is the outcome of [v[k]], whatever makes it return or fault (a
    [null] or [undefined] holder, an accessor, an index of a string, an
    inherited member). [safeGet] is [safeGet_by] at the read [get]. *)

Fixpoint safeGet_loop_by (read : value -> string -> outcome value)
    (pathSegments : list string) (currentPath : string) (nestedProp : value)
    : outcome value :=
  match pathSegments with
  | [] => Return nestedProp
  | segment :: rest =>
      let currentPath := currentPath ++ "." ++ segment in
      match read nestedProp segment with
      | Return nestedProp => safeGet_loop_by read rest currentPath nestedProp
      | Throw error =>
          let error := set_canDeleteSyncOut true error in
          let error :=
            set_message ("Error on object getter on path " ++ dquote ++ currentPath
                         ++ dquote ++ ", original message: " ++ message error) error in
          Throw error
      end
  end.

Definition safeGet_by (read : value -> string -> outcome value) (record : value)
    (path : string) : outcome value :=
  let pathSegments := split "." path in
  safeGet_loop_by read pathSegments "record" record.

(** The plain chain of reads [v.s1.s2. ... .sn] of that runtime. *)
Fixpoint chain (read : value -> string -> outcome value) (v : value)
    (segments : list string) : outcome value :=
  match segments with
  | [] => Return v
  | s :: rest => v' <- read v s ;; chain read v' rest
  end.

(** The read of a runtime whose objects have accessors: a key with an accessor
    gives the outcome of running it, any other key is read as [get] reads
    it. *)
Definition get_with_accessors (engine : Engine) (accessors : list (string * outcome value))
    (v : value) (k : string) : outcome value :=
  match v with
  | VObj _ =>
      match lookup k accessors with
      | Some outcome => outcome
      | None => get engine v k
      end
  | _ => get engine v k
  end.

(** ** Vocabulary of the properties *)

(** The plain chain of reads [v.s1.s2. ... .sn], with no handler around it. *)
Fixpoint traverse (engine : Engine) (v : value) (segments : list string) : outcome value :=
  match segments with
  | [] => Return v
  | s :: rest => v' <- get engine v s ;; traverse engine v' rest
  end.

(** [.s1.s2. ... .sn] *)
Fixpoint dotted (segments : list string) : string :=
  match segments with
  | [] => ""
  | s :: rest => "." ++ s ++ dotted rest
  end.

(** The message [safeGet] gives to a fault at [currentPath]. *)
Definition getterMessage (currentPath originalMessage : string) : string :=
  "Error on object getter on path " ++ dquote ++ currentPath ++ dquote
  ++ ", original message: " ++ originalMessage.

(** [needle] occurs in [s]. *)
Definition occurs_in (needle s : string) : Prop :=
  exists before after, s = before ++ needle ++ after.

(** The change record passes the two checks at the head of
    [generateSyncJson]. *)
Definition valid_record (r : SyncOut) : Prop :=
  isValid r = true /\ recordType r <> "" /\ id r <> "" /\ recordId r <> "".

(** The change record takes neither of the two delete branches. *)
Definition non_delete (imports : Imports) (r : SyncOut) : Prop :=
  changeType r <> CHANGE_TYPES_DELETE imports /\ changeType r <> "delete".

(** The five identity fields of the envelope. *)
Definition identity_fields (r : SyncOut) (externalType externalSyncType storeId : value)
    : list (string * value) :=
  [("SyncID", VStr (id r)); ("RecordType", externalType); ("RecordID", VStr (recordId r));
   ("SyncType", externalSyncType); ("StoreID", storeId)].

(** The message sent to the diagnostic reporter, and the one shown to users. *)
Definition diagnosticMessage (engine : Engine) (settings : Settings) (r : SyncOut)
    (originalMessage : string) : string :=
  "SYNC OUT ERROR. siteName: " ++ String_ engine (settings SYNC_SITE_NAME)
  ++ ", serverUrl: " ++ String_ engine (settings SYNC_URL) ++ ", "
  ++ "syncOutRecord.id: " ++ id r
  ++ ", storeId: " ++ String_ engine (settings THIS_STORE_ID)
  ++ " changeType: " ++ changeType r ++ ", "
  ++ "recordType: " ++ recordType r ++ ", recordId: " ++ recordId r
  ++ ", message: " ++ originalMessage.

Definition userMessage (originalMessage : string) : string :=
  "There was an error syncing. Contact mSupply mobile support. " ++ originalMessage.

Definition queries (events : list event) : list event :=
  filter (fun e => match e with Query _ _ => true | Notify _ => false end) events.

Definition notifications (events : list event) : list event :=
  filter (fun e => match e with Notify _ => true | Query _ _ => false end) events.

(** The fields filled by [record.reference && record.reference.id]:
    record type, reference, field. *)
Definition optional_references : list (string * string * string) :=
  [("Requisition", "otherStoreName", "name_ID");
   ("Stocktake", "createdBy", "created_by_ID");
   ("Stocktake", "finalisedBy", "finalised_by_ID");
   ("Stocktake", "additions", "invad_additions_ID");
   ("Stocktake", "reductions", "invad_reductions_ID");
   ("StocktakeBatch", "stocktake", "stock_take_ID");
   ("Transaction", "otherParty", "name_ID");
   ("Transaction", "enteredBy", "user_ID");
   ("Transaction", "category", "category_ID")].

(** The fields filled through [String(...)], [getDateString] or
    [getTimeString], per record type. *)
Definition rendered_fields (recordType : string) : list string :=
  if String.eqb recordType "ItemBatch" then
    ["pack_size"; "expiry_date"; "available"; "quantity"; "stock_on_hand_tot";
     "cost_price"; "sell_price"; "total_cost"]
  else if String.eqb recordType "NumberSequence" then ["value"]
  else if String.eqb recordType "NumberToReuse" then ["number_to_use"]
  else if String.eqb recordType "Requisition" then ["date_entered"; "daysToSupply"]
  else if String.eqb recordType "RequisitionItem" then
    ["stock_on_hand"; "daily_usage"; "suggested_quantity"; "actualQuan"; "line_number";
     "Cust_stock_order"]
  else if String.eqb recordType "Stocktake" then
    ["stock_take_date"; "stock_take_time"; "stock_take_created_date"]
  else if String.eqb recordType "StocktakeBatch" then
    ["snapshot_qty"; "snapshot_packsize"; "stock_take_qty"; "line_number"; "expiry";
     "cost_price"; "sell_price"]
  else if String.eqb recordType "Transaction" then
    ["entry_date"; "total"; "confirm_date"; "subtotal"; "confirm_time"]
  else if String.eqb recordType "TransactionBatch" then
    ["price_extension"; "cost_price"; "sell_price"; "expiry_date"; "pack_size"; "quantity";
     "line_number"]
  else [].

Definition tables (imports : Imports) : list SyncTranslator :=
  [RECORD_TYPES imports; REQUISITION_STATUSES imports; REQUISITION_TYPES imports;
   SEQUENCE_KEYS imports; STATUSES imports; SYNC_TYPES imports;
   TRANSACTION_BATCH_TYPES imports; TRANSACTION_TYPES imports].

(** A value the projection passes on as it found it: a setting, an attribute
    of the entity or of an entity it refers to, a token of a vocabulary table,
    or [undefined]. *)
Inductive copied (engine : Engine) (imports : Imports) (settings : Settings) (record : value)
    : value -> Prop :=
| copied_setting key : copied engine imports settings record (settings key)
| copied_attribute a v :
    get engine record a = Return v -> copied engine imports settings record v
| copied_related a b related v :
    get engine record a = Return related -> get engine related b = Return v ->
    copied engine imports settings record v
| copied_token table key context v :
    In table (tables imports) ->
    translate table key INTERNAL_TO_EXTERNAL context = Return v ->
    copied engine imports settings record v
| copied_undefined : copied engine imports settings record VUndefined.

Definition is_string (v : value) : Prop := exists s, v = VStr s.

(** The record types [generateSyncData] has a case for. *)
Definition supported_types : list string :=
  ["ItemBatch"; "NumberSequence"; "NumberToReuse"; "Requisition"; "RequisitionItem";
   "Stocktake"; "StocktakeBatch"; "Transaction"; "TransactionBatch"].

(** The field names of the payload of each record type, in source order. *)
Definition external_fields (recordType : string) : list string :=
  if String.eqb recordType "ItemBatch" then
    ["ID"; "store_ID"; "item_ID"; "pack_size"; "expiry_date"; "batch"; "available";
     "quantity"; "stock_on_hand_tot"; "cost_price"; "sell_price"; "total_cost"; "name_ID"]
  else if String.eqb recordType "NumberSequence" then ["ID"; "name"; "value"]
  else if String.eqb recordType "NumberToReuse" then ["ID"; "name"; "number_to_use"]
  else if String.eqb recordType "Requisition" then
    ["ID"; "date_entered"; "user_ID"; "name_ID"; "status"; "daysToSupply"; "store_ID";
     "serial_number"; "requester_reference"; "comment"; "type"]
  else if String.eqb recordType "RequisitionItem" then
    ["ID"; "requisition_ID"; "item_ID"; "stock_on_hand"; "daily_usage";
     "suggested_quantity"; "actualQuan"; "line_number"; "Cust_stock_order"; "comment"]
  else if String.eqb recordType "Stocktake" then
    ["ID"; "Description"; "stock_take_date"; "stock_take_time"; "created_by_ID"; "status";
     "finalised_by_ID"; "invad_additions_ID"; "invad_reductions_ID"; "store_ID"; "comment";
     "stock_take_created_date"; "serial_number"]
  else if String.eqb recordType "StocktakeBatch" then
    ["ID"; "stock_take_ID"; "item_line_ID"; "snapshot_qty"; "snapshot_packsize";
     "stock_take_qty"; "line_number"; "expiry"; "cost_price"; "sell_price"; "Batch";
     "item_ID"]
  else if String.eqb recordType "Transaction" then
    ["ID"; "name_ID"; "invoice_num"; "comment"; "entry_date"; "type"; "status"; "mode";
     "total"; "their_ref"; "confirm_date"; "subtotal"; "user_ID"; "category_ID";
     "confirm_time"; "store_ID"; "requisition_ID"]
  else if String.eqb recordType "TransactionBatch" then
    ["ID"; "transaction_ID"; "item_ID"; "batch"; "price_extension"; "note"; "cost_price";
     "sell_price"; "expiry_date"; "pack_size"; "quantity"; "item_line_ID"; "line_number";
     "item_name"; "is_from_inventory_adjustment"; "type"]
  else [].

(** Two hosts render alike: they print numbers and objects alike, convert to
    numbers alike and are at the same offset from UTC. They may differ in
    their fault messages and in what they print after a wall-clock time. *)
Definition same_rendering (first second : Engine) : Prop :=
  (forall x, NumberToString first x = NumberToString second x) /\
  (forall s, StringToNumber first s = StringToNumber second s) /\
  (forall v, ObjectToString first v = ObjectToString second v) /\
  (forall v, ObjectToNumber first v = ObjectToNumber second v) /\
  (forall t, LocalTZA first t true = LocalTZA second t true).

(** Whatever the first computation returns, the second returns. *)
Definition agree {A : Type} (first second : outcome A) : Prop :=
  forall a, first = Return a -> second = Return a.

(** ** A sample environment *)

(** Decimal digits of the fraction [r / d], [0 <= r < d], exact when [d] is a
    power of two. *)
Fixpoint fraction_digits (fuel : nat) (r d : Z) : string :=
  match fuel with
  | O => ""
  | S fuel =>
      if r =? 0 then ""
      else String (digit (10 * r / d)) (fraction_digits fuel ((10 * r) mod d) d)
  end.

(** Prints integers and short binary fractions as [Number::toString] does. *)
Definition sampleNumberToString (x : spec_float) : string :=
  match x with
  | S754_zero _ => "0"
  | S754_nan => "NaN"
  | S754_infinity s => if s then "-Infinity" else "Infinity"
  | S754_finite s m e =>
      let d := if e <? 0 then 2 ^ (- e) else 1 in
      let n := if e <? 0 then Z.pos m else Z.pos m * 2 ^ e in
      (if s then "-" else "")
      ++ NilZero.string_of_uint (N.to_uint (Z.to_N (n / d)))
      ++ (if n mod d =? 0 then ""
          else "." ++ fraction_digits 1100 (n mod d) d)
  end.

Definition sampleNullReadMessage (v : value) (k : string) : string :=
  "Cannot read property '" ++ k ++ "' of "
  ++ match v with VNull => "null" | _ => "undefined" end.

(** An engine whose local time is [offset] ms ahead of UTC. *)
Definition engineAt (offset : Z) : Engine := {|
  nullReadMessage := sampleNullReadMessage;
  notAFunctionMessage := fun method => method ++ " is not a function";
  invalidTimeMessage := "Invalid time value";
  NumberToString := sampleNumberToString;
  StringToNumber := fun _ => NaN;
  ObjectToString := fun _ => "[object Object]";
  ObjectToNumber := fun _ => NaN;
  LocalTZA := fun _ _ => offset;
  TimeZoneString := fun _ => " GMT"
|}.

Definition utcEngine : Engine := engineAt 0.
(** New Zealand daylight time, UTC+13:00. *)
Definition nzdtEngine : Engine := engineAt (13 * msPerHour).

(** Tables that leave every token as it is. *)
Definition identityTranslator : SyncTranslator :=
  {| translate := fun key _ _ => Return key |}.

Definition sampleImports : Imports := {|
  RECORD_TYPES := identityTranslator;
  REQUISITION_STATUSES := identityTranslator;
  REQUISITION_TYPES := identityTranslator;
  SEQUENCE_KEYS := identityTranslator;
  STATUSES := identityTranslator;
  SYNC_TYPES := identityTranslator;
  TRANSACTION_BATCH_TYPES := identityTranslator;
  TRANSACTION_TYPES := identityTranslator;
  CHANGE_TYPES_DELETE := "delete"
|}.

Definition sampleSettings : Settings := fun key =>
  match key with
  | THIS_STORE_ID => VStr "store1"
  | SUPPLYING_STORE_NAME_ID => VStr "name1"
  | SYNC_URL => VStr "https://sync.example.org"
  | SYNC_SITE_NAME => VStr "site1"
  end.

Definition quietClient : BugsnagClient := {| notify := fun _ => None |}.

Definition transportFault : jserror := mkError Error "Network request failed" false.
Definition faultyClient : BugsnagClient := {| notify := fun _ => Some transportFault |}.

Definition syncOut (recordType recordId changeType : string) : SyncOut :=
  {| isValid := true; id := "sync1"; recordType := recordType; recordId := recordId;
     changeType := changeType |}.

(** A requisition whose link to another store is unset, as Realm reports it. *)
Definition requisition1 : value :=
  VObj [("id", VStr "r1"); ("entryDate", VDate (Some 1705324509000));
        ("enteredById", VStr "u1"); ("otherStoreName", VNull);
        ("status", VStr "suggested"); ("daysToSupply", VNum (number_of_Z 30));
        ("serialNumber", VStr "7"); ("requesterReference", VStr "");
        ("comment", VStr ""); ("type", VStr "request")].

(** A transaction batch of an inventory adjustment, and one whose item batch
    is gone. *)
Definition transaction1 : value :=
  VObj [("id", VStr "t1"); ("isInventoryAdjustment", VBool true);
        ("type", VStr "supplier_invoice")].

Definition transactionBatch1 : value :=
  VObj [("id", VStr "tb1"); ("transaction", transaction1); ("itemId", VStr "i1");
        ("batch", VStr "b"); ("totalPrice", VNum (number_of_Z 10)); ("note", VStr "");
        ("costPrice", VNum (number_of_Z 2)); ("sellPrice", VNum (number_of_Z 3));
        ("expiryDate", VNull); ("packSize", VNum (number_of_Z 1));
        ("numberOfPacks", VNum (number_of_Z 5)); ("itemBatch", VObj [("id", VStr "ib1")]);
        ("sortIndex", VNum (number_of_Z 1)); ("itemName", VStr "item")].

Definition transactionBatch2 : value :=
  VObj [("id", VStr "tb2"); ("transaction", transaction1); ("itemId", VStr "i1");
        ("batch", VStr "b"); ("totalPrice", VNum (number_of_Z 10)); ("note", VStr "");
        ("costPrice", VNum (number_of_Z 2)); ("sellPrice", VNum (number_of_Z 3));
        ("expiryDate", VNull); ("packSize", VNum (number_of_Z 1));
        ("numberOfPacks", VNum (number_of_Z 5)); ("itemBatch", VNull);
        ("sortIndex", VNum (number_of_Z 1)); ("itemName", VStr "item")].

Definition sampleRealm : Realm := fun recordType =>
  if String.eqb recordType "Requisition" then [requisition1]
  else if String.eqb recordType "TransactionBatch" then [transactionBatch1; transactionBatch2]
  else if String.eqb recordType "Transaction" then [transaction1; transaction1]
  else [].

(** The error [safeGet] throws for [transactionBatch2]. *)
Definition brokenGetter : jserror :=
  mkError TypeError
    (getterMessage "record.itemBatch.id" "Cannot read property 'id' of null") true.

(** A transaction batch whose transaction and item batch are both gone. *)
Definition transactionBatch3 : value :=
  VObj [("id", VStr "tb3"); ("transaction", VNull); ("itemId", VStr "i1");
        ("itemBatch", VNull)].

(** A stocktake batch whose item batch is gone, with its computed attributes,
    and one whose pack size is zero. *)
Definition stocktakeBatch1 : list (string * value) :=
  [("id", VStr "sb1"); ("stocktake", VObj [("id", VStr "s1")]); ("itemBatch", VNull);
   ("snapshotNumberOfPacks", VNum (number_of_Z 4)); ("packSize", VNum (number_of_Z 10));
   ("expiryDate", VNull); ("batch", VStr "b"); ("costPrice", VNum (number_of_Z 2));
   ("sellPrice", VNum (number_of_Z 3)); ("countedNumberOfPacks", VNum (number_of_Z 4));
   ("sortIndex", VNum (number_of_Z 1)); ("itemId", VStr ""); ("itemBatchId", VStr "")].

(** A stocktake batch that created its item batch and left it empty. *)
Definition stocktakeBatch3 : list (string * value) :=
  [("id", VStr "sb3");
   ("itemBatch", VObj [("id", VStr "ib3"); ("numberOfPacks", VNum (number_of_Z 0))]);
   ("snapshotNumberOfPacks", VNum (number_of_Z 0)); ("packSize", VNum (number_of_Z 1))].

Definition stocktakeBatch2 : list (string * value) :=
  [("id", VStr "sb2"); ("itemBatch", VObj [("id", VStr "ib1")]);
   ("snapshotNumberOfPacks", VNum (number_of_Z 4)); ("packSize", VNum (number_of_Z 0));
   ("countedNumberOfPacks", VNum (number_of_Z 4))].

(** A record that was deleted from the store: reading [itemBatch] throws. *)
Definition invalidated : jserror :=
  mkError Error "Accessing object of type TransactionBatch which has been deleted" false.

Definition deletedRecordRead : value -> string -> outcome value :=
  get_with_accessors utcEngine [("itemBatch", Throw invalidated)].

(** A host at UTC with other fault messages and another time-zone suffix. *)
Definition otherUtcEngine : Engine := {|
  nullReadMessage := fun _ k => "null is not an object (evaluating '" ++ k ++ "')";
  notAFunctionMessage := fun method => method ++ " is not a function";
  invalidTimeMessage := "Invalid Date";
  NumberToString := sampleNumberToString;
  StringToNumber := fun _ => NaN;
  ObjectToString := fun _ => "[object Object]";
  ObjectToNumber := fun _ => NaN;
  LocalTZA := fun _ _ => 0;
  TimeZoneString := fun _ => " GMT+0000 (UTC)"
|}.

(** A stocktake taken at 13:15:09 UTC, and a store that holds it. *)
Definition stocktake1 : value :=
  VObj [("id", VStr "s1"); ("name", VStr "Stocktake 1");
        ("stocktakeDate", VDate (Some 1705324509000)); ("createdBy", VNull);
        ("status", VStr "suggested"); ("finalisedBy", VNull); ("additions", VNull);
        ("reductions", VNull); ("comment", VStr "");
        ("createdDate", VDate (Some 1705324509000)); ("serialNumber", VStr "1")].

Definition stocktakeRealm : Realm := fun recordType =>
  if String.eqb recordType "Stocktake" then [stocktake1] else [].

(** ** Properties of safeGet *)

Lemma append_assoc (a b c : string) : (a ++ b) ++ c = a ++ (b ++ c).
Proof. induction a as [|x a IH]; simpl; [reflexivity | now rewrite IH]. Qed.

Lemma get_Throw engine v k e :
  get engine v k = Throw e ->
  nullish v = true /\ e = mkError TypeError (nullReadMessage engine v k) false.
Proof.
  destruct v; simpl; intros H; try discriminate; try (inversion H; now split).
  destruct (String.eqb k "length"); discriminate.
Qed.

Lemma get_Return engine v k :
  nullish v = false -> exists r, get engine v k = Return r.
Proof.
  destruct v; simpl; intros H; try discriminate; eauto.
  destruct (String.eqb k "length"); eauto.
Qed.

Lemma append_empty_r (a : string) : a ++ "" = a.
Proof. induction a as [|x a IH]; simpl; [reflexivity | now rewrite IH]. Qed.

Lemma safeGet_loop_cons engine s rest currentPath v :
  safeGet_loop engine (s :: rest) currentPath v =
  match get engine v s with
  | Return n => safeGet_loop engine rest (currentPath ++ "." ++ s) n
  | Throw error =>
      Throw (mkError (class error) (getterMessage (currentPath ++ "." ++ s) (message error))
                     true)
  end.
Proof. reflexivity. Qed.

Lemma dotted_cons s rest : dotted (s :: rest) = "." ++ s ++ dotted rest.
Proof. reflexivity. Qed.

Lemma safeGet_loop_fault engine segments :
  forall k currentPath v holder segment fault,
    nth_error segments k = Some segment ->
    traverse engine v (firstn k segments) = Return holder ->
    get engine holder segment = Throw fault ->
    safeGet_loop engine segments currentPath v =
    Throw (mkError (class fault)
             (getterMessage (currentPath ++ dotted (firstn (S k) segments)) (message fault))
             true).
Proof.
  induction segments as [|s rest IH]; intros k cur v holder segment fault Hn Ht Hg.
  - destruct k; discriminate.
  - rewrite safeGet_loop_cons.
    change (firstn (S k) (s :: rest)) with (s :: firstn k rest). rewrite dotted_cons.
    destruct k as [|k].
    + injection Hn as ->. injection Ht as ->. rewrite Hg.
      change (dotted (firstn 0 rest)) with "". now rewrite append_empty_r.
    + change (firstn (S k) (s :: rest)) with (s :: firstn k rest) in Ht.
      change (nth_error (s :: rest) (S k)) with (nth_error rest k) in Hn.
      cbn [traverse bind] in Ht. unfold bind in Ht.
      destruct (get engine v s) as [v'|e]; [|discriminate].
      rewrite (IH k (cur ++ "." ++ s) v' holder segment fault Hn Ht Hg).
      now rewrite !append_assoc.
Qed.

(** C3. Whenever reading a segment of the path faults (the segments before it
    were read without a fault, down to [holder]), [safeGet] throws that error
    with [canDeleteSyncOut] set to [true] and with a message that names the
    path from the root [record] up to and including the faulting segment. *)
Theorem safeGet_fault_is_deletable_and_names_prefix :
  forall engine record path k holder segment fault,
    nth_error (split "." path) k = Some segment ->
    traverse engine record (firstn k (split "." path)) = Return holder ->
    get engine holder segment = Throw fault ->
    exists error,
      safeGet engine record path = Throw error /\
      canDeleteSyncOut error = true /\
      message error =
        getterMessage ("record" ++ dotted (firstn (S k) (split "." path))) (message fault) /\
      occurs_in ("record" ++ dotted (firstn (S k) (split "." path))) (message error).
Proof.
  intros engine record path k holder segment fault Hn Ht Hg.
  eexists. split; [|split; [|split]].
  - unfold safeGet. exact (safeGet_loop_fault engine _ k "record" record holder segment fault Hn Ht Hg).
  - reflexivity.
  - reflexivity.
  - simpl message. unfold getterMessage, occurs_in.
    exists ("Error on object getter on path " ++ dquote).
    exists (dquote ++ ", original message: " ++ message fault).
    now rewrite !append_assoc.
Qed.

Lemma split_not_nil sep s : split sep s <> [].
Proof.
  destruct s as [|c s]; simpl; [discriminate|].
  destruct (Ascii.eqb c sep); [discriminate|].
  destruct (split sep s); discriminate.
Qed.

Lemma traverse_cons engine v s rest :
  traverse engine v (s :: rest) =
  match get engine v s with
  | Return v' => traverse engine v' rest
  | Throw e => Throw e
  end.
Proof. reflexivity. Qed.

Lemma safeGet_loop_by_cons read s rest currentPath v :
  safeGet_loop_by read (s :: rest) currentPath v =
  match read v s with
  | Return n => safeGet_loop_by read rest (currentPath ++ "." ++ s) n
  | Throw error =>
      Throw (mkError (class error) (getterMessage (currentPath ++ "." ++ s) (message error))
                     true)
  end.
Proof. reflexivity. Qed.

Lemma chain_cons read v s rest :
  chain read v (s :: rest) =
  match read v s with
  | Return v' => chain read v' rest
  | Throw e => Throw e
  end.
Proof. reflexivity. Qed.

Lemma safeGet_loop_by_fault read segments :
  forall k currentPath v holder segment fault,
    nth_error segments k = Some segment ->
    chain read v (firstn k segments) = Return holder ->
    read holder segment = Throw fault ->
    safeGet_loop_by read segments currentPath v =
    Throw (mkError (class fault)
             (getterMessage (currentPath ++ dotted (firstn (S k) segments)) (message fault))
             true).
Proof.
  induction segments as [|s rest IH]; intros k cur v holder segment fault Hn Ht Hg.
  - destruct k; discriminate.
  - rewrite safeGet_loop_by_cons.
    change (firstn (S k) (s :: rest)) with (s :: firstn k rest). rewrite dotted_cons.
    destruct k as [|k].
    + injection Hn as ->. injection Ht as ->. rewrite Hg.
      change (dotted (firstn 0 rest)) with "". now rewrite append_empty_r.
    + change (firstn (S k) (s :: rest)) with (s :: firstn k rest) in Ht.
      change (nth_error (s :: rest) (S k)) with (nth_error rest k) in Hn.
      rewrite chain_cons in Ht.
      destruct (read v s) as [v'|e]; [|discriminate].
      rewrite (IH k (cur ++ "." ++ s) v' holder segment fault Hn Ht Hg).
      now rewrite !append_assoc.
Qed.

Lemma safeGet_loop_by_chain read segments :
  forall currentPath v,
    match chain read v segments with
    | Return result => safeGet_loop_by read segments currentPath v = Return result
    | Throw _ =>
        exists k holder segment fault,
          nth_error segments k = Some segment /\
          chain read v (firstn k segments) = Return holder /\
          read holder segment = Throw fault
    end.
Proof.
  induction segments as [|s rest IH]; intros cur v; [reflexivity|].
  rewrite chain_cons, safeGet_loop_by_cons.
  destruct (read v s) as [v'|fault] eqn:R.
  - specialize (IH (cur ++ "." ++ s) v').
    destruct (chain read v' rest) as [result|e]; [exact IH|].
    destruct IH as (k & holder & segment & fault & Hn & Hc & Hr).
    exists (S k), holder, segment, fault. split; [exact Hn|]. split; [|exact Hr].
    change (firstn (S k) (s :: rest)) with (s :: firstn k rest).
    now rewrite chain_cons, R.
  - exists 0%nat, v, s, fault. repeat split. exact R.
Qed.

Lemma chain_last read segments :
  forall v, segments <> [] ->
    chain read v segments =
    (holder <- chain read v (removelast segments) ;; read holder (last segments ""))%js.
Proof.
  induction segments as [|s rest IH]; intros v Hne; [congruence|].
  destruct rest as [|s' rest'].
  - cbn [chain removelast last bind]. destruct (read v s); reflexivity.
  - change (removelast (s :: s' :: rest')) with (s :: removelast (s' :: rest')).
    change (last (s :: s' :: rest') "") with (last (s' :: rest') "").
    rewrite !chain_cons. destruct (read v s) as [v'|e]; [|reflexivity].
    apply IH. discriminate.
Qed.

Lemma safeGet_loop_is_safeGet_loop_by engine segments :
  forall currentPath v,
    safeGet_loop engine segments currentPath v
    = safeGet_loop_by (get engine) segments currentPath v.
Proof.
  induction segments as [|s rest IH]; intros cur v; [reflexivity|].
  rewrite safeGet_loop_cons, safeGet_loop_by_cons.
  destruct (get engine v s); [apply IH | reflexivity].
Qed.

(** C10, as the code has it. [safeGet] throws exactly when one of the reads
    along the path faults, whatever makes it fault (a [null] or [undefined]
    holder, an accessor that throws), and then with the marked error that
    names the path up to the faulting segment. It returns a value exactly when
    the plain chain of reads returns it: when no read faults nothing is
    thrown, and a final read that gives [undefined], as a missing property
    does, makes it return [undefined]. *)
Theorem safeGet_throws_exactly_when_a_read_faults :
  forall read record path,
    (forall error,
        safeGet_by read record path = Throw error <->
        exists k holder segment fault,
          nth_error (split "." path) k = Some segment /\
          chain read record (firstn k (split "." path)) = Return holder /\
          read holder segment = Throw fault /\
          error = mkError (class fault)
                    (getterMessage ("record" ++ dotted (firstn (S k) (split "." path)))
                       (message fault))
                    true) /\
    (forall result,
        safeGet_by read record path = Return result <->
        chain read record (split "." path) = Return result) /\
    (forall holder,
        chain read record (removelast (split "." path)) = Return holder ->
        read holder (last (split "." path) "") = Return VUndefined ->
        safeGet_by read record path = Return VUndefined) /\
    (forall engine, safeGet engine record path = safeGet_by (get engine) record path).
Proof.
  intros read record path. unfold safeGet_by.
  pose proof (safeGet_loop_by_chain read (split "." path) "record" record) as C.
  assert (R : forall result,
             safeGet_loop_by read (split "." path) "record" record = Return result <->
             chain read record (split "." path) = Return result).
  { intros result. destruct (chain read record (split "." path)) as [r|e].
    - rewrite C. tauto.
    - destruct C as (k & holder & segment & fault & Hn & Hc & Hr).
      rewrite (safeGet_loop_by_fault read _ k "record" record holder segment fault Hn Hc Hr).
      split; discriminate. }
  split; [|split; [exact R|split]].
  - intros error. split.
    + intros H. destruct (chain read record (split "." path)) as [r|e].
      * rewrite C in H. discriminate.
      * destruct C as (k & holder & segment & fault & Hn & Hc & Hr).
        exists k, holder, segment, fault. repeat split; try assumption.
        rewrite (safeGet_loop_by_fault read _ k "record" record holder segment fault
                   Hn Hc Hr) in H.
        now injection H as <-.
    + intros (k & holder & segment & fault & Hn & Hc & Hr & ->).
      exact (safeGet_loop_by_fault read _ k "record" record holder segment fault Hn Hc Hr).
  - intros holder Hc Hr. apply R.
    rewrite (chain_last read _ record (split_not_nil _ _)), Hc. exact Hr.
  - intros engine. apply safeGet_loop_is_safeGet_loop_by.
Qed.

(** ** Properties of getDateString *)

Lemma take_append_exact (a b : string) : take (String.length a) (a ++ b) = a.
Proof. induction a as [|c a IH]; simpl; [now destruct b | now rewrite IH]. Qed.

Lemma isoDate_length t :
  0 <= YearFromTime t <= 9999 -> String.length (isoDate t) = 10%nat.
Proof.
  intros [H0 H1]. unfold isoDate, isoYear.
  apply Z.leb_le in H0, H1. rewrite H0, H1. reflexivity.
Qed.

Lemma getDateString_valid engine t :
  0 <= YearFromTime t <= 9999 ->
  getDateString engine (VDate (Some t)) = Return (VStr (isoDate t ++ "T00:00:00")).
Proof.
  intros H. unfold getDateString, toISOString. cbn [truthy typeof_object andb bind].
  rewrite <- (isoDate_length t H) at 1. now rewrite take_append_exact.
Qed.

Lemma Day_of_local_midnight day offset :
  - msPerDay < offset <= 0 -> Day (day * msPerDay - offset) = day.
Proof.
  intros H. unfold Day, msPerDay in *.
  symmetry. apply (Z.div_unique_pos _ _ _ (- offset)); lia.
Qed.

(** C5, as the code has it. [getDateString] is ["0000-00-00T00:00:00"] for a
    falsy or non-object argument; for a date with a time value whose UTC year is
    within 0..9999 it is the UTC calendar day [YYYY-MM-DD] followed by
    ["T00:00:00"]. So [getDateString(undefined)] is ["0000-00-00T00:00:00"],
    and [getDateString(new Date(2024, 0, 15))] is ["2024-01-15T00:00:00"]
    where local time is not ahead of UTC. *)
Theorem getDateString_renders_utc_day :
  forall engine,
    (forall d, truthy d && typeof_object d = false ->
               getDateString engine d = Return (VStr "0000-00-00T00:00:00")) /\
    (forall t, 0 <= YearFromTime t <= 9999 ->
               getDateString engine (VDate (Some t)) =
               Return (VStr (pad4 (YearFromTime t) ++ "-" ++ pad2 (MonthFromTime t) ++ "-"
                             ++ pad2 (DateFromTime t) ++ "T00:00:00"))) /\
    getDateString engine VUndefined = Return (VStr "0000-00-00T00:00:00") /\
    (- msPerDay < LocalTZA engine 1705276800000 false <= 0 ->
     getDateString engine (Date_ymd engine 2024 0 15) = Return (VStr "2024-01-15T00:00:00")).
Proof.
  intros engine. split; [|split; [|split]].
  - intros d H. unfold getDateString. now rewrite H.
  - intros t H. rewrite (getDateString_valid engine t H). unfold isoDate, isoYear.
    destruct H as [H0 H1]. apply Z.leb_le in H0, H1. rewrite H0, H1. cbn [andb].
    now rewrite !append_assoc.
  - reflexivity.
  - intros H.
    assert (E : Date_ymd engine 2024 0 15
                = VDate (Some (19737 * msPerDay - LocalTZA engine 1705276800000 false)))
      by reflexivity.
    rewrite E.
    assert (D : Day (19737 * msPerDay - LocalTZA engine 1705276800000 false) = 19737)
      by (apply Day_of_local_midnight; exact H).
    rewrite getDateString_valid.
    + unfold isoDate, YearFromTime, MonthFromTime, DateFromTime. rewrite D. reflexivity.
    + unfold YearFromTime. rewrite D. vm_compute. split; discriminate.
Qed.

(** ** Properties of generateSyncData *)

Lemma properties_lookup fields :
  forall ps k m,
    properties fields = Return ps ->
    lookup k fields = Some m ->
    exists v, m = Return v /\ lookup k ps = Some v.
Proof.
  induction fields as [|[k' m'] rest IH]; intros ps k m H L; [discriminate|].
  cbn [properties] in H. unfold bind in H.
  destruct m' as [v'|e]; [|discriminate].
  destruct (properties rest) as [ps'|e]; [|discriminate].
  injection H as <-. cbn [lookup] in *.
  destruct (String.eqb k k').
  - injection L as <-. eauto.
  - eauto.
Qed.

Lemma object_Return fields payload :
  object fields = Return (VObj payload) -> properties fields = Return payload.
Proof.
  unfold object, bind. destruct (properties fields); [|discriminate]. congruence.
Qed.

Lemma reference_id_falsy engine record reference r :
  get engine record reference = Return r -> truthy r = false ->
  reference_id engine record reference = Return r.
Proof. intros G T. unfold reference_id. rewrite G. cbn [bind]. now rewrite T. Qed.

Lemma reference_id_truthy engine record reference r :
  get engine record reference = Return r -> truthy r = true ->
  reference_id engine record reference = get engine r "id".
Proof. intros G T. unfold reference_id. rewrite G. cbn [bind]. now rewrite T. Qed.

(** Reduces the dispatch on a literal record type in [H]. *)
Ltac dispatch H :=
  unfold generateSyncData in H; simpl (String.eqb _ _) in H; cbv iota in H.

(** From [H : generateSyncData ... = Return (VObj payload)] at a literal
    record type other than TransactionBatch, the evaluated initialisers. *)
Ltac evaluated H :=
  dispatch H; apply object_Return in H.

(** C6, as the code has it. A field filled from an optional reference carries
    the id of the referenced entity when the reference is truthy, and the
    reference's own value when it is falsy: [undefined] for an [undefined]
    reference (the field is then left out of a JSON rendering) and [null] for
    a [null] one. *)
Theorem optional_reference_field_carries_falsy_reference :
  forall engine imports settings recordType reference field record payload r,
    In (recordType, reference, field) optional_references ->
    generateSyncData engine imports settings recordType record = Return (VObj payload) ->
    get engine record reference = Return r ->
    (truthy r = false -> lookup field payload = Some r) /\
    (truthy r = true ->
     exists i, get engine r "id" = Return i /\ lookup field payload = Some i).
Proof.
  intros engine imports settings recordType reference field record payload r Hin H G.
  assert (F : exists v, reference_id engine record reference = Return v
                        /\ lookup field payload = Some v).
  { unfold optional_references in Hin. cbn [In] in Hin.
    repeat (destruct Hin as [Hin|Hin]; [injection Hin as <- <- <-|]); try contradiction;
      evaluated H;
      match goal with
      | |- context [lookup ?k payload] =>
          destruct (properties_lookup _ _ k _ H eq_refl) as (v & E & L); eauto
      end. }
  destruct F as (v & E & L). split; intros T.
  - rewrite (reference_id_falsy _ _ _ _ G T) in E. congruence.
  - rewrite (reference_id_truthy _ _ _ _ G T) in E. eauto.
Qed.

Lemma properties_In fields :
  forall ps k v, properties fields = Return ps -> In (k, v) ps -> In (k, Return v) fields.
Proof.
  induction fields as [|[k' m'] rest IH]; intros ps k v H Hin.
  - injection H as <-. contradiction.
  - cbn [properties] in H. unfold bind in H.
    destruct m' as [v'|e]; [|discriminate].
    destruct (properties rest) as [ps'|e] eqn:P; [|discriminate].
    injection H as <-. destruct Hin as [Hin|Hin].
    + injection Hin as <- <-. now left.
    + right. eauto.
Qed.

Lemma getDateString_is_string engine d v : getDateString engine d = Return v -> is_string v.
Proof.
  unfold getDateString, is_string.
  destruct (truthy d && typeof_object d); cbn [bind].
  - destruct (toISOString engine d); cbn [bind]; [|discriminate].
    intros H; injection H as <-; eauto.
  - intros H; injection H as <-; eauto.
Qed.

Lemma getTimeString_is_string engine d v : getTimeString engine d = Return v -> is_string v.
Proof.
  unfold getTimeString, is_string.
  destruct (negb (truthy d) || negb (typeof_object d)).
  - intros H; injection H as <-; eauto.
  - destruct (toTimeString engine d); cbn [bind]; [|discriminate].
    intros H; injection H as <-; eauto.
Qed.

Lemma safeGet_itemBatch_id engine record v :
  safeGet engine record "itemBatch.id" = Return v ->
  exists itemBatch,
    get engine record "itemBatch" = Return itemBatch /\ get engine itemBatch "id" = Return v.
Proof.
  unfold safeGet. change (split "." "itemBatch.id") with ["itemBatch"; "id"].
  rewrite safeGet_loop_cons.
  destruct (get engine record "itemBatch") as [ib|] eqn:G1; [|discriminate].
  rewrite safeGet_loop_cons. destruct (get engine ib "id") as [i|] eqn:G2; [|discriminate].
  cbn [safeGet_loop]. intros H; injection H as <-. eauto.
Qed.

(** Case analysis on every property read in [H]. *)
Ltac reads H :=
  repeat match type of H with
         | context [get ?e ?x ?a] =>
             let G := fresh "G" in
             destruct (get e x a) eqn:G; cbn [bind] in H; try discriminate H
         end.

Ltac open_initialiser H :=
  unfold String_attr, date_attr, time_attr, reference_id, translate_attr in H;
  cbn [bind] in H; reads H;
  repeat match type of H with
         | context [truthy ?r] =>
             destruct (truthy r); cbn [bind] in H; reads H; try discriminate H
         end.

Ltac token := eapply copied_token; [|eassumption]; cbn [tables In]; tauto.

Ltac provenance H :=
  open_initialiser H;
  match type of H with
  | getDateString _ _ = Return _ => left; exact (getDateString_is_string _ _ _ H)
  | getTimeString _ _ = Return _ => left; exact (getTimeString_is_string _ _ _ H)
  | safeGet _ _ _ = Return _ =>
      right; destruct (safeGet_itemBatch_id _ _ _ H) as (? & ? & ?);
      eapply copied_related; eassumption
  | translate _ _ _ _ = Return _ => right; token
  | Return _ = Return _ =>
      injection H as <-;
      first [ left; unfold is_string; eauto; fail
            | right; first [ apply copied_setting
                           | apply copied_undefined
                           | eapply copied_attribute; eassumption
                           | eapply copied_related; eassumption ] ]
  end.

(** Every field of a payload of a literal record type, from
    [P : properties [...] = Return payload]. *)
Ltac every_field P Hin :=
  apply (properties_In _ _ _ _ P) in Hin; cbn [In] in Hin;
  repeat (destruct Hin as [Hin|Hin];
          [apply (f_equal snd) in Hin; cbn [snd] in Hin; provenance Hin|]);
  contradiction.

Ltac rendering H :=
  open_initialiser H;
  match type of H with
  | getDateString _ _ = Return _ => exact (getDateString_is_string _ _ _ H)
  | getTimeString _ _ = Return _ => exact (getTimeString_is_string _ _ _ H)
  | Return _ = Return _ => injection H as <-; unfold is_string; eauto
  end.

Ltac rendered P Hin :=
  cbn [In] in Hin;
  repeat (destruct Hin as [<-|Hin];
          [match goal with
           | |- exists s, lookup ?k _ = Some (VStr s) =>
               let v := fresh "v" in let E := fresh "E" in let L := fresh "L" in
               let S := fresh "S" in
               destruct (properties_lookup _ _ k _ P eq_refl) as (v & E & L);
               rewrite L;
               assert (S : is_string v) by (rendering E);
               destruct S as [? ->]; eauto
           end|]);
  contradiction.

Lemma payload_fields engine imports settings recordType record payload :
  generateSyncData engine imports settings recordType record = Return (VObj payload) ->
  forall k v,
    In (k, v) payload -> is_string v \/ copied engine imports settings record v.
Proof.
  intros H k v Hin. unfold generateSyncData in H.
  repeat match type of H with
         | (if String.eqb recordType ?t then _ else _) = _ =>
             destruct (String.eqb recordType t);
             [try (apply object_Return in H; every_field H Hin)|]
         end.
  - destruct (get engine record "transaction") as [transaction|] eqn:T; [|discriminate].
    cbn [bind] in H. apply object_Return in H. every_field H Hin.
  - discriminate.
Qed.

Lemma rendered_fields_are_strings engine imports settings recordType record payload :
  generateSyncData engine imports settings recordType record = Return (VObj payload) ->
  forall k, In k (rendered_fields recordType) -> exists s, lookup k payload = Some (VStr s).
Proof.
  intros H k Hin. unfold generateSyncData in H. unfold rendered_fields in Hin.
  repeat match type of H with
         | (if String.eqb recordType ?t then _ else _) = _ =>
             destruct (String.eqb recordType t);
             [try (apply object_Return in H; rendered H Hin)|]
         end.
  - destruct (get engine record "transaction") as [transaction|] eqn:T; [|discriminate].
    cbn [bind] in H. apply object_Return in H. rendered H Hin.
  - discriminate.
Qed.

(** C7, as the code has it. In a payload that was produced, every field
    filled through [String(...)], [getDateString] or [getTimeString] (the
    numeric and the date-like values) is a string, and every field is either a
    string or a value the projection passed on as it found it: a setting, an
    attribute of the entity or of an entity it refers to, a vocabulary token,
    or [undefined]. *)
Theorem payload_renders_numbers_and_dates_as_strings :
  forall engine imports settings recordType record payload,
    generateSyncData engine imports settings recordType record = Return (VObj payload) ->
    (forall k, In k (rendered_fields recordType) ->
               exists s, lookup k payload = Some (VStr s)) /\
    (forall k v, In (k, v) payload ->
                 is_string v \/ copied engine imports settings record v).
Proof.
  intros engine imports settings recordType record payload H. split.
  - exact (rendered_fields_are_strings _ _ _ _ _ _ H).
  - exact (payload_fields _ _ _ _ _ _ H).
Qed.

(** ** Properties of generateSyncJson *)

Section Envelope.

Variable engine : Engine.
Variable imports : Imports.
Variable database : Realm.
Variable settings : Settings.
Variable r : SyncOut.
Variables externalType externalSyncType : value.

Hypothesis Hvalid : valid_record r.
Hypothesis HexternalType :
  translate (RECORD_TYPES imports) (VStr (recordType r)) INTERNAL_TO_EXTERNAL VUndefined
  = Return externalType.
Hypothesis HexternalSyncType :
  translate (SYNC_TYPES imports) (VStr (changeType r)) INTERNAL_TO_EXTERNAL VUndefined
  = Return externalSyncType.

(** What the function does once the change record has passed the checks and
    the two tokens are translated. *)
Lemma generateSyncJson_checked bugsnagClient :
  generateSyncJson engine imports bugsnagClient database settings (Some r) =
  let syncJson := identity_fields r externalType externalSyncType (settings THIS_STORE_ID) in
  if String.eqb (changeType r) (CHANGE_TYPES_DELETE imports)
  then (Return (VObj syncJson), [])
  else if String.eqb (changeType r) "delete"
  then (Return (VObj (syncJson ++ [("Data", VObj [("ID", VStr (recordId r))])])%list), [])
  else
    let queried := [Query (recordType r) (recordId r)] in
    match filtered_id database (recordType r) (recordId r) with
    | [] => (Throw (mkError Error (recordType r ++ " with id = " ++ recordId r ++ " missing")
                            false), queried)
    | _ :: _ :: _ =>
        (Throw (mkError Error
                  ("Multiple " ++ recordType r ++ " records with id = " ++ recordId r) false),
         queried)
    | [record] =>
        match generateSyncData engine imports settings (recordType r) record with
        | Return syncData => (Return (VObj (syncJson ++ [("Data", syncData)])%list), queried)
        | Throw error =>
            let reported :=
              set_message (diagnosticMessage engine settings r (message error)) error in
            match notify bugsnagClient reported with
            | Some fault => (Throw fault, (queried ++ [Notify reported])%list)
            | None =>
                (Throw (set_message (userMessage (message error)) reported),
                 (queried ++ [Notify reported])%list)
            end
        end
    end.
Proof.
  destruct Hvalid as (Hv & Ht & Hi & Hr).
  apply String.eqb_neq in Ht, Hi, Hr.
  unfold generateSyncJson. rewrite Hv, Ht, Hi, Hr. cbn [negb orb].
  rewrite HexternalType, HexternalSyncType. reflexivity.
Qed.

Hypothesis Hnon_delete : non_delete imports r.

Lemma generateSyncJson_lookup bugsnagClient :
  generateSyncJson engine imports bugsnagClient database settings (Some r) =
  let syncJson := identity_fields r externalType externalSyncType (settings THIS_STORE_ID) in
  let queried := [Query (recordType r) (recordId r)] in
  match filtered_id database (recordType r) (recordId r) with
  | [] => (Throw (mkError Error (recordType r ++ " with id = " ++ recordId r ++ " missing")
                          false), queried)
  | _ :: _ :: _ =>
      (Throw (mkError Error
                ("Multiple " ++ recordType r ++ " records with id = " ++ recordId r) false),
       queried)
  | [record] =>
      match generateSyncData engine imports settings (recordType r) record with
      | Return syncData => (Return (VObj (syncJson ++ [("Data", syncData)])%list), queried)
      | Throw error =>
          let reported :=
            set_message (diagnosticMessage engine settings r (message error)) error in
          match notify bugsnagClient reported with
          | Some fault => (Throw fault, (queried ++ [Notify reported])%list)
          | None =>
              (Throw (set_message (userMessage (message error)) reported),
               (queried ++ [Notify reported])%list)
          end
      end
  end.
Proof.
  rewrite generateSyncJson_checked. cbv zeta.
  destruct Hnon_delete as [H1 H2]. apply String.eqb_neq in H1, H2.
  now rewrite H1, H2.
Qed.

(** C1, as the code has it. For a valid change record that is not a delete,
    a lookup with no match throws the error "<recordType> with id =
    <recordId> missing" and a lookup with two or more matches throws the error
    "Multiple <recordType> records with id = <recordId>"; both are thrown
    outside the handler around the field projection, so the store is queried
    once and the diagnostic reporter is not called. *)
Theorem lookup_failures_are_thrown_unreported :
  forall bugsnagClient,
    (filtered_id database (recordType r) (recordId r) = [] ->
     generateSyncJson engine imports bugsnagClient database settings (Some r)
     = (Throw (mkError Error (recordType r ++ " with id = " ++ recordId r ++ " missing")
                       false),
        [Query (recordType r) (recordId r)])) /\
    ((2 <= List.length (filtered_id database (recordType r) (recordId r)))%nat ->
     generateSyncJson engine imports bugsnagClient database settings (Some r)
     = (Throw (mkError Error
                 ("Multiple " ++ recordType r ++ " records with id = " ++ recordId r) false),
        [Query (recordType r) (recordId r)])) /\
    (List.length (filtered_id database (recordType r) (recordId r)) <> 1%nat ->
     notifications
       (snd (generateSyncJson engine imports bugsnagClient database settings (Some r)))
     = []).
Proof.
  intros bugsnagClient. rewrite generateSyncJson_lookup. cbv zeta.
  destruct (filtered_id database (recordType r) (recordId r)) as [|record [|second rest]].
  - repeat split; intros H; simpl in H; try reflexivity; lia.
  - repeat split; intros H; simpl in H; try discriminate; try lia; congruence.
  - repeat split; intros H; try discriminate; reflexivity.
Qed.

Variable record : value.
Variable error : jserror.

Hypothesis Hunique : filtered_id database (recordType r) (recordId r) = [record].
Hypothesis Hprojection :
  generateSyncData engine imports settings (recordType r) record = Throw error.

(** C4. When the field projection throws an error that carries
    [canDeleteSyncOut = true] and the diagnostic report returns, the error
    thrown to the caller is that error with the user-facing message: it still
    carries [canDeleteSyncOut = true]. *)
Theorem escalation_keeps_canDeleteSyncOut :
  forall bugsnagClient,
    canDeleteSyncOut error = true ->
    notify bugsnagClient
      (set_message (diagnosticMessage engine settings r (message error)) error) = None ->
    exists reraised,
      fst (generateSyncJson engine imports bugsnagClient database settings (Some r))
      = Throw reraised /\
      canDeleteSyncOut reraised = true /\
      message reraised = userMessage (message error) /\
      class reraised = class error.
Proof.
  intros bugsnagClient Hmarker Hnotify.
  rewrite generateSyncJson_lookup. cbv zeta. rewrite Hunique, Hprojection, Hnotify.
  eexists. split; [reflexivity|]. simpl. auto.
Qed.

(** C8, as the code has it. The call to the diagnostic reporter is not
    guarded: when it throws, its fault is what reaches the caller, in place of
    the projection error; when it returns, the projection error is thrown
    with the user-facing message. Either way the reporter was called once,
    with the diagnostic message. *)
Theorem reporter_fault_reaches_the_caller :
  forall bugsnagClient,
    let reported :=
      set_message (diagnosticMessage engine settings r (message error)) error in
    (forall fault,
        notify bugsnagClient reported = Some fault ->
        generateSyncJson engine imports bugsnagClient database settings (Some r)
        = (Throw fault, [Query (recordType r) (recordId r); Notify reported])) /\
    (notify bugsnagClient reported = None ->
     generateSyncJson engine imports bugsnagClient database settings (Some r)
     = (Throw (mkError (class error) (userMessage (message error)) (canDeleteSyncOut error)),
        [Query (recordType r) (recordId r); Notify reported])).
Proof.
  intros bugsnagClient reported. subst reported.
  rewrite generateSyncJson_lookup. cbv zeta. rewrite Hunique, Hprojection.
  split.
  - intros fault H. now rewrite H.
  - intros H. now rewrite H.
Qed.

End Envelope.

(** C2. A valid change record whose change type is [CHANGE_TYPES.DELETE] is
    translated without a call to a collaborator: the store is not queried.
    Once its two tokens are translated, the result is an envelope made of
    SyncID, RecordType, RecordID, SyncType and StoreID, with no Data field. *)
Theorem delete_envelope_has_no_Data_and_no_query :
  forall engine imports bugsnagClient database settings r,
    valid_record r ->
    changeType r = CHANGE_TYPES_DELETE imports ->
    queries (snd (generateSyncJson engine imports bugsnagClient database settings (Some r)))
    = [] /\
    forall externalType externalSyncType,
      translate (RECORD_TYPES imports) (VStr (recordType r)) INTERNAL_TO_EXTERNAL VUndefined
      = Return externalType ->
      translate (SYNC_TYPES imports) (VStr (changeType r)) INTERNAL_TO_EXTERNAL VUndefined
      = Return externalSyncType ->
      exists syncJson,
        generateSyncJson engine imports bugsnagClient database settings (Some r)
        = (Return (VObj syncJson), []) /\
        syncJson = identity_fields r externalType externalSyncType (settings THIS_STORE_ID) /\
        map fst syncJson = ["SyncID"; "RecordType"; "RecordID"; "SyncType"; "StoreID"] /\
        lookup "Data" syncJson = None.
Proof.
  intros engine imports bugsnagClient database settings r Hvalid Hdelete. split.
  - unfold generateSyncJson.
    destruct (negb (isValid r)); [reflexivity|].
    destruct (String.eqb (recordType r) "" || String.eqb (id r) ""
              || String.eqb (recordId r) ""); [reflexivity|].
    destruct (translate (RECORD_TYPES imports) _ _ _); [|reflexivity].
    destruct (translate (SYNC_TYPES imports) _ _ _); [|reflexivity].
    rewrite Hdelete, String.eqb_refl. reflexivity.
  - intros externalType externalSyncType HexternalType HexternalSyncType.
    exists (identity_fields r externalType externalSyncType (settings THIS_STORE_ID)).
    rewrite (generateSyncJson_checked engine imports database settings r
               externalType externalSyncType Hvalid HexternalType HexternalSyncType).
    cbv zeta. rewrite Hdelete, String.eqb_refl. repeat split.
Qed.

(** ** The envelope and the host *)

Lemma agree_refl {A} (m : outcome A) : agree m m.
Proof. intros a H. exact H. Qed.

Lemma agree_bind {A B} (m1 m2 : outcome A) (k1 k2 : A -> outcome B) :
  agree m1 m2 -> (forall a, agree (k1 a) (k2 a)) -> agree (bind m1 k1) (bind m2 k2).
Proof.
  intros Hm Hk b H. destruct m1 as [a|e]; [|discriminate H].
  rewrite (Hm a eq_refl). exact (Hk a b H).
Qed.

Lemma get_agree first second v k : agree (get first v k) (get second v k).
Proof. destruct v; intros a H; try discriminate H; exact H. Qed.

Lemma String_same first second v :
  same_rendering first second -> String_ first v = String_ second v.
Proof. intros (Hn & _ & Ho & _). destruct v; cbn [String_]; auto. Qed.

Lemma times_same first second a b :
  same_rendering first second -> times first a b = times second a b.
Proof.
  intros (_ & Hs & _ & Ho & _).
  assert (T : forall v, ToNumber first v = ToNumber second v)
    by (destruct v; cbn [ToNumber]; auto).
  unfold times. now rewrite !T.
Qed.

Lemma getDateString_agree first second d :
  agree (getDateString first d) (getDateString second d).
Proof.
  unfold getDateString. destruct (truthy d && typeof_object d); [|apply agree_refl].
  apply agree_bind; [|intros; apply agree_refl].
  apply agree_bind; [|intros; apply agree_refl].
  destruct d as [| | | | |[t|]|]; intros a H; try discriminate H; exact H.
Qed.

Lemma toTimeString_take first second d :
  same_rendering first second ->
  agree (time <- toTimeString first d ;; Return (VStr (take 8 time)))
        (time <- toTimeString second d ;; Return (VStr (take 8 time))).
Proof.
  intros (_ & _ & _ & _ & Hz).
  destruct d as [| | | | |[t|]|]; intros a H; try discriminate H; try exact H.
  cbn [toTimeString bind] in *. rewrite <- Hz.
  change 8%nat with (String.length (clockTime (t + LocalTZA first t true))) in *.
  rewrite take_append_exact in *. exact H.
Qed.

Lemma getTimeString_agree first second d :
  same_rendering first second -> agree (getTimeString first d) (getTimeString second d).
Proof.
  intros Hs. unfold getTimeString.
  destruct (negb (truthy d) || negb (typeof_object d)); [apply agree_refl|].
  now apply toTimeString_take.
Qed.

Lemma safeGet_loop_agree first second segments :
  forall currentPath v,
    agree (safeGet_loop first segments currentPath v)
          (safeGet_loop second segments currentPath v).
Proof.
  induction segments as [|s rest IH]; intros cur v; [apply agree_refl|].
  rewrite !safeGet_loop_cons. pose proof (get_agree first second v s) as G.
  destruct (get first v s) as [v'|e]; [|intros a H; discriminate H].
  rewrite (G v' eq_refl). apply IH.
Qed.

Lemma properties_agree fields1 :
  forall fields2,
    Forall2 (fun f1 f2 => fst f1 = fst f2 /\ agree (snd f1) (snd f2)) fields1 fields2 ->
    agree (properties fields1) (properties fields2).
Proof.
  induction fields1 as [|[k1 m1] rest1 IH]; intros fields2 F; inversion F; subst.
  - apply agree_refl.
  - destruct y as [k2 m2]. cbn [fst snd] in *. destruct H1 as [<- Hm].
    cbn [properties]. apply agree_bind; [exact Hm|]. intros v.
    apply agree_bind; [now apply IH|]. intros ps. apply agree_refl.
Qed.

Lemma object_agree fields1 fields2 :
  Forall2 (fun f1 f2 => fst f1 = fst f2 /\ agree (snd f1) (snd f2)) fields1 fields2 ->
  agree (object fields1) (object fields2).
Proof.
  intros F. unfold object. apply agree_bind; [now apply properties_agree|].
  intros ps. apply agree_refl.
Qed.

(** The initialisers of the two hosts agree. *)
Ltac agreeing Hs :=
  unfold String_attr, date_attr, time_attr, reference_id, translate_attr, safeGet;
  repeat first
    [ apply get_agree
    | apply getDateString_agree
    | apply (getTimeString_agree _ _ _ Hs)
    | apply safeGet_loop_agree
    | apply agree_bind; [|intros ?]
    | match goal with
      | |- agree (if ?c then _ else _) (if ?c then _ else _) => destruct c
      end
    | rewrite (times_same _ _ _ _ Hs)
    | rewrite (String_same _ _ _ Hs)
    | apply agree_refl ].

Ltac every_initialiser Hs :=
  apply object_agree; repeat (constructor; [split; [reflexivity|agreeing Hs]|]); constructor.

Lemma generateSyncData_agree first second imports settings recordType record :
  same_rendering first second ->
  agree (generateSyncData first imports settings recordType record)
        (generateSyncData second imports settings recordType record).
Proof.
  intros Hs. unfold generateSyncData.
  repeat match goal with
         | |- agree (if String.eqb recordType ?t then _ else _) _ =>
             destruct (String.eqb recordType t); [try every_initialiser Hs|]
         end.
  - apply agree_bind; [apply get_agree|]. intros transaction. every_initialiser Hs.
  - apply agree_refl.
Qed.

(** C9, as the code has it. Two translations of a change record against the
    same store, settings and vocabulary tables, on hosts that render alike
    (the same printing of numbers and objects, the same offset of local time
    from UTC): when the first returns an envelope, the second returns the
    same envelope after the same calls, whatever the diagnostic reporters,
    the fault messages and the time-zone names of the two hosts are. *)
Theorem translation_is_repeatable_on_hosts_that_render_alike :
  forall first second imports firstClient secondClient database settings syncOutRecord
         envelope events,
    same_rendering first second ->
    generateSyncJson first imports firstClient database settings syncOutRecord
    = (Return envelope, events) ->
    generateSyncJson second imports secondClient database settings syncOutRecord
    = (Return envelope, events).
Proof.
  intros first second imports firstClient secondClient database settings syncOutRecord
         envelope events Hs.
  unfold generateSyncJson.
  destruct syncOutRecord as [r|]; [|discriminate].
  destruct (negb (isValid r)); [discriminate|].
  destruct (String.eqb (recordType r) "" || String.eqb (id r) ""
            || String.eqb (recordId r) ""); [discriminate|].
  destruct (translate (RECORD_TYPES imports) _ _ _); [|discriminate].
  destruct (translate (SYNC_TYPES imports) _ _ _); [|discriminate].
  destruct (String.eqb (changeType r) (CHANGE_TYPES_DELETE imports)); [trivial|].
  destruct (String.eqb (changeType r) "delete"); [trivial|].
  destruct (filtered_id database (recordType r) (recordId r)) as [|record [|? ?]];
    [discriminate| |discriminate].
  pose proof (generateSyncData_agree first second imports settings (recordType r) record Hs)
    as A.
  destruct (generateSyncData first imports settings (recordType r) record) as [syncData|e].
  - rewrite (A syncData eq_refl). trivial.
  - destruct (notify firstClient _); discriminate.
Qed.

(** ** The properties at the sample environment *)

(** The calendar conversions at known days. *)
Example civil_from_days_epoch : civil_from_days 0 = (1970, 1, 1).
Proof. reflexivity. Qed.

Example civil_from_days_leap_day : civil_from_days 11016 = (2000, 2, 29).
Proof. reflexivity. Qed.

Example days_from_civil_2024_01_15 : days_from_civil 2024 1 15 = 19737.
Proof. reflexivity. Qed.

Lemma syncOut_valid recordType recordId changeType :
  recordType <> "" -> recordId <> "" -> valid_record (syncOut recordType recordId changeType).
Proof. intros Ht Hr. repeat split; try assumption. discriminate. Defined.

(** C3 at a transaction batch whose item batch is [null]. *)
Lemma safeGet_fault_witness :
  exists error,
    safeGet utcEngine transactionBatch2 "itemBatch.id" = Throw error /\
    canDeleteSyncOut error = true /\
    message error
    = getterMessage ("record" ++ dotted (firstn 2 (split "." "itemBatch.id")))
        (message (mkError TypeError "Cannot read property 'id' of null" false)) /\
    occurs_in ("record" ++ dotted (firstn 2 (split "." "itemBatch.id"))) (message error).
Proof.
  apply (safeGet_fault_is_deletable_and_names_prefix
           utcEngine transactionBatch2 "itemBatch.id" 1 VNull "id"
           (mkError TypeError "Cannot read property 'id' of null" false));
    reflexivity.
Defined.

(** C10 at a transaction batch whose item batch has no [code]. *)
Lemma safeGet_missing_final_witness :
  safeGet_by (get utcEngine) transactionBatch1 "itemBatch.code" = Return VUndefined.
Proof.
  apply (proj1 (proj2 (proj2 (safeGet_throws_exactly_when_a_read_faults
                                (get utcEngine) transactionBatch1 "itemBatch.code")))
           (VObj [("id", VStr "ib1")])); reflexivity.
Defined.

(** C10 fails: on a record whose accessor [itemBatch] throws, [safeGet]
    throws although no value a segment is read from is [null] or
    [undefined]. *)
Lemma safeGet_accessor_counterexample :
  safeGet_by deletedRecordRead transactionBatch1 "itemBatch.id"
  = Throw (mkError Error (getterMessage "record.itemBatch" (message invalidated)) true) /\
  forall k holder,
    chain deletedRecordRead transactionBatch1 (firstn k (split "." "itemBatch.id"))
    = Return holder ->
    nullish holder = false.
Proof.
  split; [reflexivity|].
  intros k holder H. destruct k as [|k].
  - injection H as <-. reflexivity.
  - destruct k; discriminate H.
Qed.

(** C5 at a time of day on 2024-01-15 and at [new Date(2024, 0, 15)] in UTC. *)
Lemma getDateString_witness :
  getDateString utcEngine (VDate (Some 1705324509000)) = Return (VStr "2024-01-15T00:00:00")
  /\ getDateString utcEngine (Date_ymd utcEngine 2024 0 15)
     = Return (VStr "2024-01-15T00:00:00").
Proof.
  split.
  - apply (proj1 (proj2 (getDateString_renders_utc_day utcEngine)) 1705324509000).
    vm_compute. split; discriminate.
  - apply (proj2 (proj2 (proj2 (getDateString_renders_utc_day utcEngine)))).
    vm_compute. split; [reflexivity | discriminate].
Defined.

(** C5 fails: an invalid date and an object that is no date make
    [getDateString] throw, and thirteen hours ahead of UTC
    [new Date(2024, 0, 15)] is rendered as the day before. *)
Lemma getDateString_counterexample :
  ~ (forall engine d, exists day, getDateString engine d = Return (VStr (day ++ "T00:00:00")))
  /\ ~ (forall engine,
         getDateString engine (Date_ymd engine 2024 0 15) = Return (VStr "2024-01-15T00:00:00"))
  /\ getDateString utcEngine (VDate None)
     = Throw (mkError RangeError "Invalid time value" false)
  /\ getDateString utcEngine (VObj [])
     = Throw (mkError TypeError "toISOString is not a function" false)
  /\ getDateString nzdtEngine (Date_ymd nzdtEngine 2024 0 15)
     = Return (VStr "2024-01-14T00:00:00").
Proof.
  split; [|split; [|repeat split]].
  - intros H. destruct (H utcEngine (VDate None)) as [day Hday]. discriminate Hday.
  - intros H. specialize (H nzdtEngine). vm_compute in H. discriminate H.
Qed.

(** C6 at a requisition whose link to the other store is [null]. *)
Lemma optional_reference_witness :
  exists payload,
    generateSyncData utcEngine sampleImports sampleSettings "Requisition" requisition1
    = Return (VObj payload) /\
    lookup "name_ID" payload = Some VNull.
Proof.
  eexists. split; [reflexivity|].
  refine (proj1 (optional_reference_field_carries_falsy_reference
                   utcEngine sampleImports sampleSettings
                   "Requisition" "otherStoreName" "name_ID" requisition1 _ VNull
                   _ eq_refl eq_refl) eq_refl).
  left. reflexivity.
Defined.

(** C6 fails: with the reference [null], the field is in the payload and it
    is [null]. *)
Lemma optional_reference_counterexample :
  get utcEngine requisition1 "otherStoreName" = Return VNull /\
  exists payload,
    generateSyncData utcEngine sampleImports sampleSettings "Requisition" requisition1
    = Return (VObj payload) /\
    lookup "name_ID" payload = Some VNull /\
    lookup "name_ID" payload <> Some VUndefined /\
    lookup "name_ID" payload <> None.
Proof.
  split; [reflexivity|]. eexists. split; [reflexivity|].
  repeat split; discriminate.
Qed.

Lemma update_non_delete recordType recordId :
  non_delete sampleImports (syncOut recordType recordId "update").
Proof. split; discriminate. Defined.

(** C7 at a transaction batch: the quantity is a string, the adjustment flag
    is the transaction's own value. *)
Lemma payload_witness :
  exists payload,
    generateSyncData utcEngine sampleImports sampleSettings "TransactionBatch"
      transactionBatch1 = Return (VObj payload) /\
    (exists s, lookup "quantity" payload = Some (VStr s)) /\
    (is_string (VBool true)
     \/ copied utcEngine sampleImports sampleSettings transactionBatch1 (VBool true)).
Proof.
  eexists. split; [reflexivity|]. split.
  - apply (proj1 (payload_renders_numbers_and_dates_as_strings
                    utcEngine sampleImports sampleSettings "TransactionBatch"
                    transactionBatch1 _ eq_refl) "quantity").
    cbn. tauto.
  - apply (proj2 (payload_renders_numbers_and_dates_as_strings
                    utcEngine sampleImports sampleSettings "TransactionBatch"
                    transactionBatch1 _ eq_refl) "is_from_inventory_adjustment" (VBool true)).
    cbn. tauto.
Defined.

(** C7 fails: the payload of a transaction batch of an inventory adjustment
    carries the boolean [true]. *)
Lemma payload_counterexample :
  exists payload,
    generateSyncData utcEngine sampleImports sampleSettings "TransactionBatch"
      transactionBatch1 = Return (VObj payload) /\
    lookup "is_from_inventory_adjustment" payload = Some (VBool true) /\
    ~ is_string (VBool true) /\
    VBool true <> VUndefined.
Proof.
  eexists. split; [reflexivity|]. split; [reflexivity|]. split.
  - intros [s Hs]. discriminate Hs.
  - discriminate.
Qed.

(** C2 at a deleted requisition that is no longer in the store. *)
Lemma delete_envelope_witness :
  exists syncJson,
    generateSyncJson utcEngine sampleImports quietClient sampleRealm sampleSettings
      (Some (syncOut "Requisition" "r2" "delete"))
    = (Return (VObj syncJson), []) /\
    syncJson = identity_fields (syncOut "Requisition" "r2" "delete")
                 (VStr "Requisition") (VStr "delete") (VStr "store1") /\
    map fst syncJson = ["SyncID"; "RecordType"; "RecordID"; "SyncType"; "StoreID"] /\
    lookup "Data" syncJson = None.
Proof.
  refine (proj2 (delete_envelope_has_no_Data_and_no_query
                   utcEngine sampleImports quietClient sampleRealm sampleSettings
                   (syncOut "Requisition" "r2" "delete") (syncOut_valid _ _ _ _ _) eq_refl)
            (VStr "Requisition") (VStr "delete") eq_refl eq_refl); discriminate.
Defined.

(** C1 at an updated requisition that is not in the store. *)
Lemma lookup_failure_witness :
  generateSyncJson utcEngine sampleImports quietClient sampleRealm sampleSettings
    (Some (syncOut "Requisition" "r2" "update"))
  = (Throw (mkError Error "Requisition with id = r2 missing" false),
     [Query "Requisition" "r2"]).
Proof.
  refine (proj1 (lookup_failures_are_thrown_unreported
                   utcEngine sampleImports sampleRealm sampleSettings
                   (syncOut "Requisition" "r2" "update") (VStr "Requisition") (VStr "update")
                   (syncOut_valid _ _ _ _ _) eq_refl eq_refl (update_non_delete _ _)
                   quietClient) eq_refl); discriminate.
Defined.

(** C1 fails: a lookup with no match and a lookup with two matches throw
    without a call to the diagnostic reporter. *)
Lemma lookup_failure_counterexample :
  filtered_id sampleRealm "Requisition" "r2" = [] /\
  List.length (filtered_id sampleRealm "Transaction" "t1") = 2%nat /\
  (exists error events,
      generateSyncJson utcEngine sampleImports quietClient sampleRealm sampleSettings
        (Some (syncOut "Requisition" "r2" "update")) = (Throw error, events) /\
      List.length (notifications events) = 0%nat) /\
  (exists error events,
      generateSyncJson utcEngine sampleImports quietClient sampleRealm sampleSettings
        (Some (syncOut "Transaction" "t1" "update")) = (Throw error, events) /\
      List.length (notifications events) = 0%nat).
Proof.
  split; [reflexivity|]. split; [reflexivity|].
  split; eexists; eexists; split; reflexivity.
Qed.

(** C4 at a transaction batch whose item batch is [null]. *)
Lemma escalation_witness :
  exists reraised,
    fst (generateSyncJson utcEngine sampleImports quietClient sampleRealm sampleSettings
           (Some (syncOut "TransactionBatch" "tb2" "update")))
    = Throw reraised /\
    canDeleteSyncOut reraised = true /\
    message reraised = userMessage (message brokenGetter) /\
    class reraised = class brokenGetter.
Proof.
  refine (escalation_keeps_canDeleteSyncOut
            utcEngine sampleImports sampleRealm sampleSettings
            (syncOut "TransactionBatch" "tb2" "update")
            (VStr "TransactionBatch") (VStr "update")
            (syncOut_valid _ _ _ _ _) eq_refl eq_refl (update_non_delete _ _)
            transactionBatch2 brokenGetter eq_refl eq_refl quietClient eq_refl eq_refl);
    discriminate.
Defined.

(** C8 at the same transaction batch, with a reporter that throws. *)
Lemma reporter_fault_witness :
  generateSyncJson utcEngine sampleImports faultyClient sampleRealm sampleSettings
    (Some (syncOut "TransactionBatch" "tb2" "update"))
  = (Throw transportFault,
     [Query "TransactionBatch" "tb2";
      Notify (set_message
                (diagnosticMessage utcEngine sampleSettings
                   (syncOut "TransactionBatch" "tb2" "update") (message brokenGetter))
                brokenGetter)]).
Proof.
  refine (proj1 (reporter_fault_reaches_the_caller
                   utcEngine sampleImports sampleRealm sampleSettings
                   (syncOut "TransactionBatch" "tb2" "update")
                   (VStr "TransactionBatch") (VStr "update")
                   (syncOut_valid _ _ _ _ _) eq_refl eq_refl (update_non_delete _ _)
                   transactionBatch2 brokenGetter eq_refl eq_refl faultyClient)
            transportFault eq_refl); discriminate.
Defined.

(** C8 fails: the projection throws the error of the broken getter, the
    reporter throws, and the caller receives the reporter's fault. *)
Lemma reporter_fault_counterexample :
  generateSyncData utcEngine sampleImports sampleSettings "TransactionBatch"
    transactionBatch2 = Throw brokenGetter /\
  (exists reported, notify faultyClient reported = Some transportFault) /\
  fst (generateSyncJson utcEngine sampleImports faultyClient sampleRealm sampleSettings
         (Some (syncOut "TransactionBatch" "tb2" "update")))
  = Throw transportFault /\
  transportFault <> brokenGetter /\
  transportFault <> set_message (userMessage (message brokenGetter)) brokenGetter.
Proof.
  split; [reflexivity|]. split; [exists brokenGetter; reflexivity|].
  split; [reflexivity|]. split; discriminate.
Qed.

Lemma utc_engines_render_alike : same_rendering utcEngine otherUtcEngine.
Proof. repeat split. Defined.

(** C9 at a stocktake, on two hosts at UTC with different fault messages,
    time-zone names and diagnostic reporters. *)
Lemma translation_is_repeatable_on_like_hosts_witness :
  exists envelope events,
    generateSyncJson utcEngine sampleImports faultyClient stocktakeRealm sampleSettings
      (Some (syncOut "Stocktake" "s1" "update")) = (Return envelope, events) /\
    generateSyncJson otherUtcEngine sampleImports quietClient stocktakeRealm sampleSettings
      (Some (syncOut "Stocktake" "s1" "update")) = (Return envelope, events).
Proof.
  eexists. eexists. split; [reflexivity|].
  apply (translation_is_repeatable_on_hosts_that_render_alike
           utcEngine otherUtcEngine sampleImports faultyClient quietClient
           stocktakeRealm sampleSettings _ _ _ utc_engines_render_alike).
  reflexivity.
Defined.

(** C9 fails: the same change record, store, settings, vocabulary tables and
    reporter, on a host at UTC and on a host thirteen hours ahead, give
    envelopes with different [stock_take_time]. *)
Lemma translation_depends_on_time_zone_counterexample :
  exists atUtc aheadOfUtc,
    generateSyncJson utcEngine sampleImports quietClient stocktakeRealm sampleSettings
      (Some (syncOut "Stocktake" "s1" "update"))
    = (Return (VObj (identity_fields (syncOut "Stocktake" "s1" "update") (VStr "Stocktake")
                       (VStr "update") (VStr "store1") ++ [("Data", VObj atUtc)])%list),
       [Query "Stocktake" "s1"]) /\
    generateSyncJson nzdtEngine sampleImports quietClient stocktakeRealm sampleSettings
      (Some (syncOut "Stocktake" "s1" "update"))
    = (Return (VObj (identity_fields (syncOut "Stocktake" "s1" "update") (VStr "Stocktake")
                       (VStr "update") (VStr "store1") ++ [("Data", VObj aheadOfUtc)])%list),
       [Query "Stocktake" "s1"]) /\
    lookup "stock_take_time" atUtc = Some (VStr "13:15:09") /\
    lookup "stock_take_time" aheadOfUtc = Some (VStr "02:15:09") /\
    atUtc <> aheadOfUtc.
Proof.
  eexists. eexists. split; [reflexivity|]. split; [reflexivity|].
  split; [reflexivity|]. split; [reflexivity|].
  intros H. apply (f_equal (lookup "stock_take_time")) in H. discriminate H.
Qed.

(** ** Further properties of generateSyncJson *)

(** X1. A change record that is absent, not valid, or without a record type, an
    id or a record id is refused with the error "Missing sync out record" or
    "Malformed sync out record" before any collaborator is involved: no token
    is translated (the outcome is the same for all vocabulary tables), the
    store is not queried and nothing is reported. *)
Theorem bad_change_record_is_refused_first :
  forall engine imports bugsnagClient database settings,
    generateSyncJson engine imports bugsnagClient database settings None
    = (Throw (mkError Error "Missing sync out record" false), []) /\
    (forall r,
        isValid r = false ->
        generateSyncJson engine imports bugsnagClient database settings (Some r)
        = (Throw (mkError Error "Missing sync out record" false), [])) /\
    (forall r,
        isValid r = true ->
        recordType r = "" \/ id r = "" \/ recordId r = "" ->
        generateSyncJson engine imports bugsnagClient database settings (Some r)
        = (Throw (mkError Error "Malformed sync out record" false), [])).
Proof.
  intros engine imports bugsnagClient database settings. split; [reflexivity|]. split.
  - intros r H. unfold generateSyncJson. now rewrite H.
  - intros r H M. unfold generateSyncJson. rewrite H. cbn [negb].
    assert (E : String.eqb (recordType r) "" || String.eqb (id r) ""
                || String.eqb (recordId r) "" = true).
    { destruct M as [M|[M|M]]; rewrite M; cbn [String.eqb];
        rewrite ?orb_true_r; reflexivity. }
    now rewrite E.
Qed.

(** X2. Every call makes at most one query to the store, for the record type and
    record id of the change record, and at most one diagnostic report, which
    comes after the query and only when an error is thrown: when an envelope
    is returned nothing was reported. *)
Theorem generateSyncJson_calls_collaborators_at_most_once :
  forall engine imports bugsnagClient database settings syncOutRecord,
    let result :=
      generateSyncJson engine imports bugsnagClient database settings syncOutRecord in
    snd result = [] \/
    exists r,
      syncOutRecord = Some r /\
      (snd result = [Query (recordType r) (recordId r)] \/
       exists reported error,
         snd result = [Query (recordType r) (recordId r); Notify reported] /\
         fst result = Throw error).
Proof.
  intros engine imports bugsnagClient database settings syncOutRecord. cbv zeta.
  unfold generateSyncJson.
  destruct syncOutRecord as [r|]; [|left; reflexivity].
  destruct (negb (isValid r)); [left; reflexivity|].
  destruct (String.eqb (recordType r) "" || String.eqb (id r) ""
            || String.eqb (recordId r) ""); [left; reflexivity|].
  destruct (translate (RECORD_TYPES imports) _ _ _); [|left; reflexivity].
  destruct (translate (SYNC_TYPES imports) _ _ _); [|left; reflexivity].
  destruct (String.eqb (changeType r) (CHANGE_TYPES_DELETE imports)); [left; reflexivity|].
  destruct (String.eqb (changeType r) "delete"); [left; reflexivity|].
  right. exists r. split; [reflexivity|].
  destruct (filtered_id database (recordType r) (recordId r)) as [|record [|? ?]];
    [left; reflexivity| |left; reflexivity].
  destruct (generateSyncData engine imports settings (recordType r) record);
    [left; reflexivity|].
  right. destruct (notify bugsnagClient _); eexists; eexists; split; reflexivity.
Qed.

(** X3. An envelope is returned only for a valid change record whose two tokens
    were translated. It is made of the five identity fields, in that order,
    followed by at most one field, Data; it has no Data field only if the
    change type is [CHANGE_TYPES.DELETE]. *)
Theorem returned_envelope_shape :
  forall engine imports bugsnagClient database settings syncOutRecord envelope events,
    generateSyncJson engine imports bugsnagClient database settings syncOutRecord
    = (Return envelope, events) ->
    exists r externalType externalSyncType,
      syncOutRecord = Some r /\
      valid_record r /\
      translate (RECORD_TYPES imports) (VStr (recordType r)) INTERNAL_TO_EXTERNAL VUndefined
      = Return externalType /\
      translate (SYNC_TYPES imports) (VStr (changeType r)) INTERNAL_TO_EXTERNAL VUndefined
      = Return externalSyncType /\
      ((envelope
        = VObj (identity_fields r externalType externalSyncType (settings THIS_STORE_ID)) /\
        changeType r = CHANGE_TYPES_DELETE imports)
       \/
       exists syncData,
         envelope
         = VObj (identity_fields r externalType externalSyncType (settings THIS_STORE_ID)
                 ++ [("Data", syncData)])%list).
Proof.
  intros engine imports bugsnagClient database settings syncOutRecord envelope events.
  unfold generateSyncJson.
  destruct syncOutRecord as [r|]; [|discriminate].
  destruct (isValid r) eqn:Hv; cbn [negb]; [|discriminate].
  destruct (String.eqb (recordType r) "") eqn:Ht; cbn [orb]; [discriminate|].
  destruct (String.eqb (id r) "") eqn:Hi; cbn [orb]; [discriminate|].
  destruct (String.eqb (recordId r) "") eqn:Hr; [discriminate|].
  apply String.eqb_neq in Ht, Hi, Hr.
  destruct (translate (RECORD_TYPES imports) _ _ _) as [externalType|] eqn:T1; [|discriminate].
  destruct (translate (SYNC_TYPES imports) _ _ _) as [externalSyncType|] eqn:T2;
    [|discriminate].
  intros H. exists r, externalType, externalSyncType.
  split; [reflexivity|]. split; [repeat split; assumption|].
  split; [exact T1|]. split; [exact T2|].
  destruct (String.eqb (changeType r) (CHANGE_TYPES_DELETE imports)) eqn:D.
  - left. apply String.eqb_eq in D. injection H as <- _. now split.
  - right. destruct (String.eqb (changeType r) "delete").
    + injection H as <- _. eexists. reflexivity.
    + destruct (filtered_id database (recordType r) (recordId r)) as [|record [|? ?]];
        [discriminate| |discriminate].
      destruct (generateSyncData engine imports settings (recordType r) record);
        [injection H as <- _; eexists; reflexivity|].
      destruct (notify bugsnagClient _); discriminate.
Qed.

(** X4. For a valid change record that is not a delete, with exactly one entity of
    its record type and id in the store, a projection that returns makes the
    call return the identity fields followed by Data, the projection of that
    entity; the store was queried once and nothing was reported. *)
Theorem envelope_carries_the_projection :
  forall engine imports bugsnagClient database settings r externalType externalSyncType
         record syncData,
    valid_record r ->
    non_delete imports r ->
    translate (RECORD_TYPES imports) (VStr (recordType r)) INTERNAL_TO_EXTERNAL VUndefined
    = Return externalType ->
    translate (SYNC_TYPES imports) (VStr (changeType r)) INTERNAL_TO_EXTERNAL VUndefined
    = Return externalSyncType ->
    filtered_id database (recordType r) (recordId r) = [record] ->
    generateSyncData engine imports settings (recordType r) record = Return syncData ->
    generateSyncJson engine imports bugsnagClient database settings (Some r)
    = (Return (VObj (identity_fields r externalType externalSyncType (settings THIS_STORE_ID)
                     ++ [("Data", syncData)])%list),
       [Query (recordType r) (recordId r)]) /\
    lookup "Data"
      (identity_fields r externalType externalSyncType (settings THIS_STORE_ID)
       ++ [("Data", syncData)])%list = Some syncData.
Proof.
  intros engine imports bugsnagClient database settings r externalType externalSyncType
         record syncData Hvalid Hnd T1 T2 Hunique Hdata.
  rewrite (generateSyncJson_lookup engine imports database settings r externalType
             externalSyncType Hvalid T1 T2 Hnd).
  cbv zeta. rewrite Hunique, Hdata. split; reflexivity.
Qed.

(** X5. A valid change record whose change type is the literal 'delete' is
    translated without a query to the store, whatever [CHANGE_TYPES.DELETE]
    is: the envelope has no Data field when [CHANGE_TYPES.DELETE] is 'delete',
    and Data is [{ID: recordId}] otherwise. *)
Theorem literal_delete_never_queries :
  forall engine imports bugsnagClient database settings r externalType externalSyncType,
    valid_record r ->
    changeType r = "delete" ->
    translate (RECORD_TYPES imports) (VStr (recordType r)) INTERNAL_TO_EXTERNAL VUndefined
    = Return externalType ->
    translate (SYNC_TYPES imports) (VStr (changeType r)) INTERNAL_TO_EXTERNAL VUndefined
    = Return externalSyncType ->
    (CHANGE_TYPES_DELETE imports = "delete" ->
     generateSyncJson engine imports bugsnagClient database settings (Some r)
     = (Return (VObj (identity_fields r externalType externalSyncType
                        (settings THIS_STORE_ID))), [])) /\
    (CHANGE_TYPES_DELETE imports <> "delete" ->
     generateSyncJson engine imports bugsnagClient database settings (Some r)
     = (Return (VObj (identity_fields r externalType externalSyncType
                        (settings THIS_STORE_ID)
                      ++ [("Data", VObj [("ID", VStr (recordId r))])])%list), [])).
Proof.
  intros engine imports bugsnagClient database settings r externalType externalSyncType
         Hvalid Hdelete T1 T2.
  rewrite (generateSyncJson_checked engine imports database settings r externalType
             externalSyncType Hvalid T1 T2).
  cbv zeta. rewrite Hdelete. split; intros H.
  - now rewrite H.
  - apply not_eq_sym in H. apply String.eqb_neq in H. now rewrite H.
Qed.

(** ** Further properties of generateSyncData *)

(** X6. A record type outside the nine supported ones is refused with the error
    "Sync out record type not supported.", which is not marked as safe to
    delete, without a read of the record, of the settings or of a vocabulary
    table: the outcome is the same for every record. *)
Theorem unsupported_record_type_is_refused :
  forall engine imports settings recordType record,
    ~ In recordType supported_types ->
    generateSyncData engine imports settings recordType record
    = Throw (mkError Error "Sync out record type not supported." false).
Proof.
  intros engine imports settings recordType record H.
  unfold generateSyncData.
  repeat match goal with
         | |- (if String.eqb recordType ?t then _ else _) = _ =>
             destruct (String.eqb_spec recordType t) as [E|_];
             [exfalso; apply H; rewrite E; cbn [supported_types In]; tauto|]
         end.
  reflexivity.
Qed.

Lemma properties_keys fields :
  forall ps, properties fields = Return ps -> map fst ps = map fst fields.
Proof.
  induction fields as [|[k m] rest IH]; intros ps H.
  - injection H as <-. reflexivity.
  - cbn [properties] in H. unfold bind in H.
    destruct m as [v|e]; [|discriminate].
    destruct (properties rest) as [ps'|e] eqn:P; [|discriminate].
    injection H as <-. cbn [map fst]. f_equal. now apply IH.
Qed.

(** X7. The field names of a payload, and their order, depend on the record type
    alone: they are the names listed for it, each of them once. A record type
    with a payload is one of the nine supported ones. *)
Theorem payload_field_names_are_fixed :
  forall engine imports settings recordType record payload,
    generateSyncData engine imports settings recordType record = Return (VObj payload) ->
    map fst payload = external_fields recordType /\
    NoDup (map fst payload) /\
    In recordType supported_types.
Proof.
  intros engine imports settings recordType record payload H.
  unfold generateSyncData in H. unfold external_fields, supported_types.
  repeat match type of H with
         | (if String.eqb recordType ?t then _ else _) = _ =>
             destruct (String.eqb_spec recordType t) as [E|_];
             [try (apply object_Return in H; apply properties_keys in H; rewrite H;
                   cbn [map fst]; split; [reflexivity|]; split;
                   [repeat (constructor; [cbn [In]; intuition discriminate|]); constructor
                   |rewrite E; cbn [In]; tauto])|]
         end.
  - destruct (get engine record "transaction"); [|discriminate].
    cbn [bind] in H. apply object_Return in H; apply properties_keys in H; rewrite H.
    cbn [map fst]. split; [reflexivity|]. split.
    + repeat (constructor; [cbn [In]; intuition discriminate|]); constructor.
    + rewrite E; cbn [In]; tauto.
  - discriminate.
Qed.

Lemma properties_Throw fields :
  forall e, properties fields = Throw e -> exists k, In (k, Throw e) fields.
Proof.
  induction fields as [|[k m] rest IH]; intros e H; [discriminate|].
  cbn [properties] in H. unfold bind in H.
  destruct m as [v|e'].
  - destruct (properties rest) as [ps'|e''] eqn:P; [discriminate|].
    injection H as ->. destruct (IH e eq_refl) as [k' Hin]. exists k'. now right.
  - injection H as ->. exists k. now left.
Qed.

Lemma object_Throw fields e :
  object fields = Throw e -> exists k, In (k, Throw e) fields.
Proof.
  unfold object, bind. destruct (properties fields) eqn:P; [discriminate|].
  intros H; injection H as ->. now apply properties_Throw.
Qed.

Lemma toISOString_Throw engine d e :
  toISOString engine d = Throw e -> canDeleteSyncOut e = false.
Proof.
  destruct d as [| | | | |[t|]|]; cbn [toISOString]; intros H; try discriminate;
    injection H as <-; reflexivity.
Qed.

Lemma getDateString_Throw engine d e :
  getDateString engine d = Throw e -> canDeleteSyncOut e = false.
Proof.
  unfold getDateString. destruct (truthy d && typeof_object d); cbn [bind]; [|discriminate].
  destruct (toISOString engine d) eqn:T; cbn [bind]; [discriminate|].
  intros H; injection H as <-. exact (toISOString_Throw _ _ _ T).
Qed.

Lemma getTimeString_Throw engine d e :
  getTimeString engine d = Throw e -> canDeleteSyncOut e = false.
Proof.
  unfold getTimeString. destruct (negb (truthy d) || negb (typeof_object d)); [discriminate|].
  destruct d as [| | | | |[t|]|]; cbn [toTimeString bind]; intros H; try discriminate;
    injection H as <-; reflexivity.
Qed.

Lemma safeGet_itemBatch_id_Throw engine record e :
  nullish record = false ->
  safeGet engine record "itemBatch.id" = Throw e ->
  exists itemBatch,
    get engine record "itemBatch" = Return itemBatch /\
    nullish itemBatch = true /\
    e = mkError TypeError
          (getterMessage "record.itemBatch.id" (nullReadMessage engine itemBatch "id")) true.
Proof.
  intros Hrecord. unfold safeGet. change (split "." "itemBatch.id") with ["itemBatch"; "id"].
  rewrite safeGet_loop_cons.
  destruct (get_Return engine record "itemBatch" Hrecord) as [itemBatch G]. rewrite G.
  rewrite safeGet_loop_cons. destruct (get engine itemBatch "id") as [i|fault] eqn:G2.
  - discriminate.
  - destruct (get_Throw _ _ _ _ G2) as [Hn ->]. intros H; injection H as <-.
    exists itemBatch. repeat split; assumption.
Qed.

(** An initialiser that throws an error marked as safe to delete, when no
    vocabulary table throws one: impossible unless it is the guarded read. *)
Ltac unmarked Htables M H :=
  open_initialiser H;
  match type of H with
  | Return _ = Throw _ => discriminate H
  | Throw ?x = Throw _ =>
      injection H as H; subst x;
      match goal with
      | G : get _ _ _ = Throw _ |- _ =>
          destruct (get_Throw _ _ _ _ G) as [_ ?]; subst; discriminate M
      end
  | getDateString _ _ = Throw _ => rewrite (getDateString_Throw _ _ _ H) in M; discriminate M
  | getTimeString _ _ = Throw _ => rewrite (getTimeString_Throw _ _ _ H) in M; discriminate M
  | translate ?t _ _ _ = Throw _ =>
      rewrite (Htables t _ _ _ ltac:(cbn [tables In]; tauto) H) in M; discriminate M
  end.

Ltac every_unmarked Htables M H :=
  apply object_Throw in H; destruct H as [k H]; cbn [In] in H;
  repeat (destruct H as [H|H];
          [apply (f_equal snd) in H; cbn [snd] in H; unmarked Htables M H|]);
  contradiction.

(** X8. When no vocabulary table throws an error marked as safe to delete, the
    projection throws such an error only for a TransactionBatch whose
    [itemBatch] is [null] or [undefined], and the error is the one of the
    guarded read of [itemBatch.id]. *)
Theorem deletable_projection_error_is_a_missing_item_batch :
  forall engine imports settings recordType record error,
    (forall table key context fault,
        In table (tables imports) ->
        translate table key INTERNAL_TO_EXTERNAL context = Throw fault ->
        canDeleteSyncOut fault = false) ->
    generateSyncData engine imports settings recordType record = Throw error ->
    canDeleteSyncOut error = true ->
    recordType = "TransactionBatch" /\
    exists itemBatch,
      get engine record "itemBatch" = Return itemBatch /\
      nullish itemBatch = true /\
      error = mkError TypeError
                (getterMessage "record.itemBatch.id" (nullReadMessage engine itemBatch "id"))
                true.
Proof.
  intros engine imports settings recordType record error Htables H M.
  unfold generateSyncData in H.
  repeat match type of H with
         | (if String.eqb recordType ?t then _ else _) = _ =>
             destruct (String.eqb_spec recordType t) as [E|_];
             [try (exfalso; every_unmarked Htables M H)|]
         end.
  - split; [exact E|].
    destruct (get engine record "transaction") as [transaction|fault] eqn:T.
    + assert (Hrecord : nullish record = false).
      { destruct (nullish record) eqn:N; [|reflexivity].
        destruct record; try discriminate N; discriminate T. }
      cbn [bind] in H. apply object_Throw in H; destruct H as [k H]; cbn [In] in H.
      repeat (destruct H as [H|H];
              [apply (f_equal snd) in H; cbn [snd] in H;
               first [ exact (safeGet_itemBatch_id_Throw _ _ _ Hrecord H)
                     | exfalso; unmarked Htables M H ]|]).
      contradiction.
    + cbn [bind] in H. injection H as <-.
      destruct (get_Throw _ _ _ _ T) as [_ ->]. discriminate M.
  - injection H as <-. discriminate M.
Qed.

(** X9. A TransactionBatch whose [transaction] is [null] or [undefined] makes the
    projection throw the fault of reading [id] of it, which is not marked as
    safe to delete, whatever its [itemBatch] is. *)
Theorem missing_transaction_is_not_deletable :
  forall engine imports settings record transaction,
    get engine record "transaction" = Return transaction ->
    nullish transaction = true ->
    generateSyncData engine imports settings "TransactionBatch" record
    = Throw (mkError TypeError (nullReadMessage engine transaction "id") false).
Proof.
  intros engine imports settings record transaction T N.
  assert (Hrecord : nullish record = false).
  { destruct (nullish record) eqn:R; [|reflexivity].
    destruct record; try discriminate R; discriminate T. }
  destruct (get_Return engine record "id" Hrecord) as [i Gi].
  assert (G : get engine transaction "id"
              = Throw (mkError TypeError (nullReadMessage engine transaction "id") false))
    by (destruct transaction; try discriminate N; reflexivity).
  unfold generateSyncData. simpl (String.eqb _ _). cbv iota.
  rewrite T. cbn [bind]. unfold object. cbn [properties].
  rewrite Gi. cbn [bind]. rewrite G. reflexivity.
Qed.

(** ** Further properties of getTimeString, getDateString and safeGet *)

Lemma clockTime_length t : String.length (clockTime t) = 8%nat.
Proof. reflexivity. Qed.

(** X10. [getTimeString] is "00:00:00" for a falsy or non-object argument and the
    local wall-clock time HH:MM:SS for a date with a valid time value,
    whatever the engine prints after it. For an invalid date it is the first
    eight characters of "Invalid Date", where [getDateString] throws; for an
    object that is no date it throws a [TypeError]. *)
Theorem getTimeString_renders_local_clock :
  forall engine,
    (forall d, truthy d && typeof_object d = false ->
               getTimeString engine d = Return (VStr "00:00:00")) /\
    (forall t,
        getTimeString engine (VDate (Some t))
        = Return (VStr (pad2 (HourFromTime (t + LocalTZA engine t true)) ++ ":"
                        ++ pad2 (MinFromTime (t + LocalTZA engine t true)) ++ ":"
                        ++ pad2 (SecFromTime (t + LocalTZA engine t true))))) /\
    getTimeString engine (VDate None) = Return (VStr "Invalid ") /\
    (forall props,
        getTimeString engine (VObj props)
        = Throw (mkError TypeError (notAFunctionMessage engine "toTimeString") false)).
Proof.
  intros engine. split; [|split; [|split]].
  - intros d H. unfold getTimeString.
    destruct (truthy d); destruct (typeof_object d); try discriminate H; reflexivity.
  - intros t. unfold getTimeString, toTimeString. cbn [truthy typeof_object negb orb bind].
    rewrite <- (clockTime_length (t + LocalTZA engine t true)) at 1.
    now rewrite take_append_exact.
  - reflexivity.
  - reflexivity.
Qed.

Lemma take_append_long n :
  forall a b, (n <= String.length a)%nat -> take n (a ++ b) = take n a.
Proof.
  induction n as [|n IH]; intros a b H; [reflexivity|].
  destruct a as [|c a]; [simpl in H; lia|].
  cbn [append take]. f_equal. apply IH. simpl in H. lia.
Qed.

Lemma isoDate_long t : (10 <= String.length (isoDate t))%nat.
Proof.
  unfold isoDate, isoYear.
  destruct ((0 <=? YearFromTime t) && (YearFromTime t <=? 9999)).
  - cbn. lia.
  - destruct (YearFromTime t <? 0); cbn; lia.
Qed.

(** X11. The time of day never shows in [getDateString]: two time values of the
    same UTC day give the same string; and whatever is returned ends with
    "T00:00:00". *)
Theorem getDateString_ignores_time_of_day :
  forall engine,
    (forall t1 t2,
        Day t1 = Day t2 ->
        getDateString engine (VDate (Some t1)) = getDateString engine (VDate (Some t2))) /\
    (forall d v,
        getDateString engine d = Return v -> exists day, v = VStr (day ++ "T00:00:00")).
Proof.
  intros engine. split.
  - intros t1 t2 H. unfold getDateString, toISOString.
    cbn [truthy typeof_object andb bind].
    rewrite !take_append_long by apply isoDate_long.
    unfold isoDate, YearFromTime, MonthFromTime, DateFromTime. now rewrite H.
  - intros d v. unfold getDateString.
    destruct (truthy d && typeof_object d); cbn [bind].
    + destruct (toISOString engine d); cbn [bind]; [|discriminate].
      intros H; injection H as <-. eexists; reflexivity.
    + intros H; injection H as <-. exists "0000-00-00"; reflexivity.
Qed.

Lemma safeGet_loop_traverse engine segments :
  forall currentPath v,
    match traverse engine v segments with
    | Return result => safeGet_loop engine segments currentPath v = Return result
    | Throw fault =>
        exists prefix,
          safeGet_loop engine segments currentPath v
          = Throw (mkError (class fault) (getterMessage prefix (message fault)) true)
    end.
Proof.
  induction segments as [|s rest IH]; intros cur v; [reflexivity|].
  rewrite traverse_cons, safeGet_loop_cons.
  destruct (get engine v s) as [v'|fault]; [apply IH|].
  eexists. reflexivity.
Qed.

(** X12. [safeGet] returns a value exactly when the plain chain of reads returns
    it; when the plain chain throws, [safeGet] throws an error of the same
    class, marked as safe to delete, whose message wraps the original one. *)
Theorem safeGet_agrees_with_plain_reads :
  forall engine record path,
    (forall v,
        safeGet engine record path = Return v <->
        traverse engine record (split "." path) = Return v) /\
    (forall fault,
        traverse engine record (split "." path) = Throw fault ->
        exists error prefix,
          safeGet engine record path = Throw error /\
          class error = class fault /\
          canDeleteSyncOut error = true /\
          message error = getterMessage prefix (message fault)).
Proof.
  intros engine record path. unfold safeGet.
  pose proof (safeGet_loop_traverse engine (split "." path) "record" record) as H.
  destruct (traverse engine record (split "." path)) as [result|fault].
  - split.
    + intros v. rewrite H. tauto.
    + discriminate.
  - destruct H as [prefix H]. split.
    + intros v. rewrite H. split; discriminate.
    + intros fault' E. injection E as <-. eexists. exists prefix.
      split; [exact H|]. repeat split.
Qed.

(** ** Properties of StocktakeBatch *)

Lemma truthy_not_nullish v : truthy v = true -> nullish v = false.
Proof. destruct v; try discriminate; reflexivity. Qed.

Lemma itemBatchId_cases engine this itemBatch :
  get engine (VObj this) "itemBatch" = Return itemBatch ->
  StocktakeBatch.itemBatchId engine this
  = if truthy itemBatch then get engine itemBatch "id" else Return (VStr "").
Proof.
  intros G. unfold StocktakeBatch.itemBatchId. rewrite G. cbn [bind].
  destruct (truthy itemBatch); reflexivity.
Qed.

Lemma itemId_cases engine this itemBatch :
  get engine (VObj this) "itemBatch" = Return itemBatch ->
  StocktakeBatch.itemId engine this
  = if truthy itemBatch
    then (item <- get engine itemBatch "item" ;;
          if truthy item then get engine item "id" else Return (VStr ""))
    else Return (VStr "").
Proof.
  intros G. unfold StocktakeBatch.itemId. rewrite G. cbn [bind].
  destruct (truthy itemBatch); cbn [negb]; [|reflexivity].
  destruct (get engine itemBatch "item") as [item|]; cbn [bind]; [|reflexivity].
  destruct (truthy item); reflexivity.
Qed.

(** X13. The accessors [itemId] and [itemBatchId] of a stocktake batch never throw:
    they are '' when the item batch is absent, [itemId] is also '' when the
    item batch has no item, and otherwise they are the id of the item and of
    the item batch. *)
Theorem stocktakeBatch_ids_never_throw :
  forall engine this,
    (exists a b,
        StocktakeBatch.itemId engine this = Return a /\
        StocktakeBatch.itemBatchId engine this = Return b) /\
    (forall itemBatch,
        get engine (VObj this) "itemBatch" = Return itemBatch ->
        (truthy itemBatch = false ->
         StocktakeBatch.itemId engine this = Return (VStr "") /\
         StocktakeBatch.itemBatchId engine this = Return (VStr "")) /\
        (truthy itemBatch = true ->
         StocktakeBatch.itemBatchId engine this = get engine itemBatch "id" /\
         forall item,
           get engine itemBatch "item" = Return item ->
           StocktakeBatch.itemId engine this
           = if truthy item then get engine item "id" else Return (VStr ""))).
Proof.
  intros engine this.
  destruct (get_Return engine (VObj this) "itemBatch" eq_refl) as [itemBatch G].
  split.
  - rewrite (itemId_cases _ _ _ G), (itemBatchId_cases _ _ _ G).
    destruct (truthy itemBatch) eqn:T; [|eauto].
    apply truthy_not_nullish in T.
    destruct (get_Return engine itemBatch "item" T) as [item Gi].
    destruct (get_Return engine itemBatch "id" T) as [i Gid].
    rewrite Gi, Gid. cbn [bind].
    destruct (truthy item) eqn:Ti; [|eauto].
    apply truthy_not_nullish in Ti.
    destruct (get_Return engine item "id" Ti) as [j Gj]. rewrite Gj. eauto.
  - intros itemBatch' G'. rewrite (itemId_cases _ _ _ G'), (itemBatchId_cases _ _ _ G').
    split; intros T; rewrite T; [split; reflexivity|].
    split; [reflexivity|]. intros item Gi. now rewrite Gi.
Qed.

(** X14. The payload of a stocktake batch whose item batch is absent has ''
    for item_line_ID and for item_ID (where a transaction batch in the same
    state makes the projection throw), the record reading its [itemBatchId]
    and [itemId] through the accessors of the class. *)
Theorem stocktakeBatch_payload_without_item_batch :
  forall engine imports settings this payload itemBatch,
    get engine (VObj this) "itemBatchId" = StocktakeBatch.itemBatchId engine this ->
    get engine (VObj this) "itemId" = StocktakeBatch.itemId engine this ->
    get engine (VObj this) "itemBatch" = Return itemBatch ->
    truthy itemBatch = false ->
    generateSyncData engine imports settings "StocktakeBatch" (VObj this)
    = Return (VObj payload) ->
    lookup "item_line_ID" payload = Some (VStr "") /\
    lookup "item_ID" payload = Some (VStr "").
Proof.
  intros engine imports settings this payload itemBatch H1 H2 G T H.
  rewrite (itemBatchId_cases _ _ _ G), T in H1.
  rewrite (itemId_cases _ _ _ G), T in H2.
  evaluated H.
  destruct (properties_lookup _ _ "item_line_ID" _ H eq_refl) as (v1 & V1 & L1).
  destruct (properties_lookup _ _ "item_ID" _ H eq_refl) as (v2 & V2 & L2).
  rewrite L1, L2. split; congruence.
Qed.

Lemma lookup_assign_same k v props : lookup k (assign k v props) = Some v.
Proof.
  induction props as [|[k' v'] rest IH]; cbn [assign lookup].
  - now rewrite String.eqb_refl.
  - destruct (String.eqb k k') eqn:E; cbn [lookup]; rewrite ?String.eqb_refl, ?E; auto.
Qed.

Lemma lookup_assign_other k k' v props :
  k' <> k -> lookup k' (assign k v props) = lookup k' props.
Proof.
  intros N. induction props as [|[k0 v0] rest IH]; cbn [assign lookup].
  - apply String.eqb_neq in N. now rewrite N.
  - destruct (String.eqb k k0) eqn:E; cbn [lookup].
    + apply String.eqb_eq in E. subst k0. apply String.eqb_neq in N. now rewrite N.
    + destruct (String.eqb k' k0); auto.
Qed.

(** X15. Setting the counted total quantity of a stocktake batch whose pack size is
    falsy (zero, NaN, unset) divides nothing: it stores 0 as the counted
    number of packs and leaves every other attribute as it was, and with a
    pack size of zero the counted total quantity then reads zero. *)
Theorem set_countedTotalQuantity_with_no_pack_size :
  forall engine this quantity packSize,
    get engine (VObj this) "packSize" = Return packSize ->
    truthy packSize = false ->
    exists this',
      StocktakeBatch.set_countedTotalQuantity engine this quantity = Return this' /\
      get engine (VObj this') "countedNumberOfPacks" = Return (VNum (number_of_Z 0)) /\
      (forall k, k <> "countedNumberOfPacks" ->
                 get engine (VObj this') k = get engine (VObj this) k) /\
      (forall s, packSize = VNum (S754_zero s) ->
                 StocktakeBatch.countedTotalQuantity engine this'
                 = Return (VNum (S754_zero s))).
Proof.
  intros engine this quantity packSize G T.
  exists (assign "countedNumberOfPacks" (VNum (number_of_Z 0)) this).
  split; [|split; [|split]].
  - unfold StocktakeBatch.set_countedTotalQuantity. rewrite G. cbn [bind]. now rewrite T.
  - cbn [get]. now rewrite lookup_assign_same.
  - intros k N. cbn [get]. now rewrite lookup_assign_other.
  - intros s ->. unfold StocktakeBatch.countedTotalQuantity.
    cbn [get] in *. rewrite lookup_assign_same.
    rewrite lookup_assign_other by discriminate.
    injection G as G. rewrite G. cbn [bind]. destruct s; reflexivity.
Qed.

Lemma number_sub_diag x :
  (exists s, x = S754_zero s) \/ (exists s m e, x = S754_finite s m e) ->
  number_sub x x = S754_zero false.
Proof.
  intros [[s ->]|(s & m & e & ->)].
  - destruct s; reflexivity.
  - unfold number_sub, SFsub. cbv zeta. now rewrite Z.sub_diag.
Qed.

(** X16. A stocktake batch counted at its snapshot number of packs has a
    difference of zero, provided the total quantity is a finite number (the
    difference of an infinite or NaN total is NaN). *)
Theorem difference_of_unchanged_count_is_zero :
  forall engine this packs packSize,
    get engine (VObj this) "countedNumberOfPacks" = Return packs ->
    get engine (VObj this) "snapshotNumberOfPacks" = Return packs ->
    get engine (VObj this) "packSize" = Return packSize ->
    (exists s, number_mul (ToNumber engine packs) (ToNumber engine packSize) = S754_zero s) \/
    (exists s m e,
        number_mul (ToNumber engine packs) (ToNumber engine packSize) = S754_finite s m e) ->
    StocktakeBatch.difference engine this = Return (VNum (S754_zero false)).
Proof.
  intros engine this packs packSize Gc Gs Gp F.
  unfold StocktakeBatch.difference, StocktakeBatch.countedTotalQuantity,
    StocktakeBatch.snapshotTotalQuantity.
  rewrite Gc, Gs, Gp. cbn [bind]. unfold times. cbn [ToNumber].
  now rewrite (number_sub_diag _ F).
Qed.

(** X17. The destructor of a stocktake batch asks for at most one deletion, of its
    own item batch, and only when the snapshot number of packs and the number
    of packs of the item batch are both zero. With a snapshot other than zero
    it does nothing, even without an item batch; with a snapshot of zero and no
    item batch it throws. *)
Theorem destructor_deletes_only_an_empty_item_batch :
  forall engine this,
    (forall deletions,
        StocktakeBatch.destructor engine this = Return deletions ->
        deletions = [] \/
        exists itemBatch s s',
          deletions = [Delete "ItemBatch" itemBatch] /\
          get engine (VObj this) "itemBatch" = Return itemBatch /\
          get engine (VObj this) "snapshotNumberOfPacks" = Return (VNum (S754_zero s)) /\
          get engine itemBatch "numberOfPacks" = Return (VNum (S754_zero s'))) /\
    (forall snapshot,
        get engine (VObj this) "snapshotNumberOfPacks" = Return snapshot ->
        strictly_zero snapshot = false ->
        StocktakeBatch.destructor engine this = Return []) /\
    (forall snapshot itemBatch,
        get engine (VObj this) "snapshotNumberOfPacks" = Return snapshot ->
        strictly_zero snapshot = true ->
        get engine (VObj this) "itemBatch" = Return itemBatch ->
        nullish itemBatch = true ->
        StocktakeBatch.destructor engine this
        = Throw (mkError TypeError (nullReadMessage engine itemBatch "numberOfPacks") false)).
Proof.
  intros engine this. unfold StocktakeBatch.destructor. split; [|split].
  - intros deletions H.
    destruct (get engine (VObj this) "snapshotNumberOfPacks") as [snapshot|] eqn:Gs;
      [|discriminate].
    cbn [bind] in H. destruct (strictly_zero snapshot) eqn:Zs.
    + destruct (get engine (VObj this) "itemBatch") as [itemBatch|] eqn:Gi; [|discriminate].
      cbn [bind] in H.
      destruct (get engine itemBatch "numberOfPacks") as [packs|] eqn:Gp; [|discriminate].
      cbn [bind] in H. destruct (strictly_zero packs) eqn:Zp.
      * injection H as <-. right.
        destruct snapshot as [| | |[s| | |]| | |]; try discriminate Zs.
        destruct packs as [| | |[s'| | |]| | |]; try discriminate Zp.
        exists itemBatch, s, s'. repeat split; assumption.
      * injection H as <-. now left.
    + injection H as <-. now left.
  - intros snapshot Gs Z. rewrite Gs. cbn [bind]. now rewrite Z.
  - intros snapshot itemBatch Gs Z Gi N. rewrite Gs. cbn [bind]. rewrite Z, Gi. cbn [bind].
    destruct itemBatch; try discriminate N; reflexivity.
Qed.

(** ** The further properties at the sample environment *)

Lemma bad_change_record_witness :
  generateSyncJson utcEngine sampleImports quietClient sampleRealm sampleSettings
    (Some (syncOut "Requisition" "" "update"))
  = (Throw (mkError Error "Malformed sync out record" false), []).
Proof.
  apply (proj2 (proj2 (bad_change_record_is_refused_first
                         utcEngine sampleImports quietClient sampleRealm sampleSettings))).
  - reflexivity.
  - right. right. reflexivity.
Defined.

Lemma returned_envelope_witness :
  exists r externalType externalSyncType,
    Some (syncOut "Requisition" "r2" "delete") = Some r /\
    valid_record r /\
    translate (RECORD_TYPES sampleImports) (VStr (recordType r)) INTERNAL_TO_EXTERNAL
      VUndefined = Return externalType /\
    translate (SYNC_TYPES sampleImports) (VStr (changeType r)) INTERNAL_TO_EXTERNAL
      VUndefined = Return externalSyncType /\
    ((VObj (identity_fields (syncOut "Requisition" "r2" "delete") (VStr "Requisition")
              (VStr "delete") (VStr "store1"))
      = VObj (identity_fields r externalType externalSyncType (sampleSettings THIS_STORE_ID))
      /\ changeType r = CHANGE_TYPES_DELETE sampleImports)
     \/
     exists syncData,
       VObj (identity_fields (syncOut "Requisition" "r2" "delete") (VStr "Requisition")
               (VStr "delete") (VStr "store1"))
       = VObj (identity_fields r externalType externalSyncType
                 (sampleSettings THIS_STORE_ID) ++ [("Data", syncData)])%list).
Proof.
  apply (returned_envelope_shape utcEngine sampleImports quietClient sampleRealm
           sampleSettings (Some (syncOut "Requisition" "r2" "delete")) _ []).
  reflexivity.
Defined.

Lemma envelope_carries_the_projection_witness :
  exists syncData,
    generateSyncData utcEngine sampleImports sampleSettings "Requisition" requisition1
    = Return syncData /\
    generateSyncJson utcEngine sampleImports quietClient sampleRealm sampleSettings
      (Some (syncOut "Requisition" "r1" "update"))
    = (Return (VObj (identity_fields (syncOut "Requisition" "r1" "update")
                       (VStr "Requisition") (VStr "update") (VStr "store1")
                     ++ [("Data", syncData)])%list),
       [Query "Requisition" "r1"]).
Proof.
  eexists. split; [reflexivity|].
  refine (proj1 (envelope_carries_the_projection
                   utcEngine sampleImports quietClient sampleRealm sampleSettings
                   (syncOut "Requisition" "r1" "update") (VStr "Requisition") (VStr "update")
                   requisition1 _ (syncOut_valid _ _ _ _ _) (update_non_delete _ _)
                   eq_refl eq_refl eq_refl eq_refl)); discriminate.
Defined.

Lemma literal_delete_witness :
  generateSyncJson utcEngine sampleImports quietClient sampleRealm sampleSettings
    (Some (syncOut "Requisition" "r2" "delete"))
  = (Return (VObj (identity_fields (syncOut "Requisition" "r2" "delete")
                     (VStr "Requisition") (VStr "delete") (VStr "store1"))), []).
Proof.
  refine (proj1 (literal_delete_never_queries
                   utcEngine sampleImports quietClient sampleRealm sampleSettings
                   (syncOut "Requisition" "r2" "delete") (VStr "Requisition") (VStr "delete")
                   (syncOut_valid _ _ _ _ _) eq_refl eq_refl eq_refl) eq_refl); discriminate.
Defined.

Lemma unsupported_record_type_witness :
  generateSyncData utcEngine sampleImports sampleSettings "Customer" requisition1
  = Throw (mkError Error "Sync out record type not supported." false).
Proof.
  apply unsupported_record_type_is_refused.
  cbn [supported_types In]. intuition discriminate.
Defined.

Lemma payload_field_names_witness :
  exists payload,
    generateSyncData utcEngine sampleImports sampleSettings "TransactionBatch"
      transactionBatch1 = Return (VObj payload) /\
    map fst payload = external_fields "TransactionBatch" /\
    NoDup (map fst payload) /\
    In "TransactionBatch" supported_types.
Proof.
  eexists. split; [reflexivity|].
  apply (payload_field_names_are_fixed utcEngine sampleImports sampleSettings
           "TransactionBatch" transactionBatch1).
  reflexivity.
Defined.

Lemma sample_tables_throw_nothing :
  forall table key context fault,
    In table (tables sampleImports) ->
    translate table key INTERNAL_TO_EXTERNAL context = Throw fault ->
    canDeleteSyncOut fault = false.
Proof.
  intros table key context fault Hin H. cbn [tables sampleImports In] in Hin.
  repeat (destruct Hin as [<-|Hin]; [discriminate H|]). contradiction.
Defined.

Lemma deletable_projection_error_witness :
  "TransactionBatch" = "TransactionBatch" /\
  exists itemBatch,
    get utcEngine transactionBatch2 "itemBatch" = Return itemBatch /\
    nullish itemBatch = true /\
    brokenGetter
    = mkError TypeError
        (getterMessage "record.itemBatch.id" (nullReadMessage utcEngine itemBatch "id")) true.
Proof.
  apply (deletable_projection_error_is_a_missing_item_batch
           utcEngine sampleImports sampleSettings "TransactionBatch" transactionBatch2
           brokenGetter sample_tables_throw_nothing); reflexivity.
Defined.

Lemma missing_transaction_witness :
  generateSyncData utcEngine sampleImports sampleSettings "TransactionBatch"
    transactionBatch3
  = Throw (mkError TypeError "Cannot read property 'id' of null" false).
Proof.
  apply (missing_transaction_is_not_deletable
           utcEngine sampleImports sampleSettings transactionBatch3 VNull); reflexivity.
Defined.

Lemma getTimeString_witness :
  getTimeString nzdtEngine VNull = Return (VStr "00:00:00") /\
  getTimeString nzdtEngine (VDate (Some 47109000)) = Return (VStr "02:05:09").
Proof.
  split.
  - apply (proj1 (getTimeString_renders_local_clock nzdtEngine)). reflexivity.
  - apply (proj1 (proj2 (getTimeString_renders_local_clock nzdtEngine)) 47109000).
Defined.

Lemma getDateString_time_of_day_witness :
  getDateString utcEngine (VDate (Some 1705276800000))
  = getDateString utcEngine (VDate (Some 1705324509000)).
Proof.
  apply (proj1 (getDateString_ignores_time_of_day utcEngine)). reflexivity.
Defined.

Lemma safeGet_agrees_witness :
  safeGet utcEngine transactionBatch1 "itemBatch.id" = Return (VStr "ib1").
Proof.
  apply (proj1 (safeGet_agrees_with_plain_reads utcEngine transactionBatch1 "itemBatch.id")).
  reflexivity.
Defined.

Lemma stocktakeBatch_ids_witness :
  StocktakeBatch.itemId utcEngine stocktakeBatch1 = Return (VStr "") /\
  StocktakeBatch.itemBatchId utcEngine stocktakeBatch1 = Return (VStr "").
Proof.
  apply (proj1 (proj2 (stocktakeBatch_ids_never_throw utcEngine stocktakeBatch1)
                  VNull eq_refl)).
  reflexivity.
Defined.

Lemma stocktakeBatch_payload_witness :
  exists payload,
    generateSyncData utcEngine sampleImports sampleSettings "StocktakeBatch"
      (VObj stocktakeBatch1) = Return (VObj payload) /\
    lookup "item_line_ID" payload = Some (VStr "") /\
    lookup "item_ID" payload = Some (VStr "").
Proof.
  eexists. split; [reflexivity|].
  apply (stocktakeBatch_payload_without_item_batch
           utcEngine sampleImports sampleSettings stocktakeBatch1 _ VNull);
    reflexivity.
Defined.

Lemma set_countedTotalQuantity_witness :
  exists this',
    StocktakeBatch.set_countedTotalQuantity utcEngine stocktakeBatch2 (VNum (number_of_Z 7))
    = Return this' /\
    get utcEngine (VObj this') "countedNumberOfPacks" = Return (VNum (number_of_Z 0)) /\
    (forall k, k <> "countedNumberOfPacks" ->
               get utcEngine (VObj this') k = get utcEngine (VObj stocktakeBatch2) k) /\
    (forall s, VNum (number_of_Z 0) = VNum (S754_zero s) ->
               StocktakeBatch.countedTotalQuantity utcEngine this'
               = Return (VNum (S754_zero s))).
Proof.
  apply (set_countedTotalQuantity_with_no_pack_size
           utcEngine stocktakeBatch2 (VNum (number_of_Z 7)) (VNum (number_of_Z 0)));
    reflexivity.
Defined.

Lemma difference_witness :
  StocktakeBatch.difference utcEngine stocktakeBatch1 = Return (VNum (S754_zero false)).
Proof.
  apply (difference_of_unchanged_count_is_zero
           utcEngine stocktakeBatch1 (VNum (number_of_Z 4)) (VNum (number_of_Z 10)));
    try reflexivity.
  right. vm_compute. eauto.
Defined.

Lemma destructor_witness :
  StocktakeBatch.destructor utcEngine stocktakeBatch1 = Return [] /\
  StocktakeBatch.destructor utcEngine stocktakeBatch3
  = Return [Delete "ItemBatch"
              (VObj [("id", VStr "ib3"); ("numberOfPacks", VNum (number_of_Z 0))])].
Proof.
  split.
  - apply (proj1 (proj2 (destructor_deletes_only_an_empty_item_batch
                           utcEngine stocktakeBatch1)) (VNum (number_of_Z 4)));
      reflexivity.
  - reflexivity.
Defined.
